(** * SimpleTuner: the aspect-ratio bucket index manager

    A shallow embedding of [helpers/multiaspect/bucket.py] (class
    [BucketManager]) and of the storage backend it drives
    ([helpers/data_backend/aws.py], class [S3DataBackend]).

    Conventions.
    - A Python [dict] is an insertion-ordered association list with unique
      keys ([PyDict]); the order is kept because the persisted JSON document
      depends on it.
    - The Python [set] of discovered files is a [gset string].
    - A method of [BucketManager] is a computation in the monad [M]: it takes
      the manager (which owns its backend) and returns the outcome, a value
      or a raised exception, together with the manager as the call left it.
    - Code of other libraries (json, boto3, fnmatch) and of collaborators
      outside the two files is a field of a class, so that the statements
      hold for every implementation of it.
    - Calls to the logger do not touch the manager and are left out, except
      in [_load_cache], where the warning is part of what it promises. *)

From stdpp Require Import base list strings gmap.
From Stdlib Require Import ZArith Lia Ascii.

Set Warnings "-register-all".

(** ** Exceptions and outcomes *)

Inductive exn : Type :=
| KeyError (key : string)
| AttributeError (attr : string)
| TypeError
| ValueError
| JSONDecodeError
| ClientError (what : string).

Inductive Res (A : Type) : Type :=
| Ok (a : A)
| Raise (e : exn).
Arguments Ok {A} a.
Arguments Raise {A} e.

Definition is_ok {A} (r : Res A) : bool :=
  match r with Ok _ => true | Raise _ => false end.

(** ** Python dictionaries, insertion ordered *)

Module PyDict.
Section ops.
Context {V : Type}.
#[local] Abbreviation dict := (list (string * V)).

(** [d.get(k)] *)
Fixpoint get (k : string) (d : dict) : option V :=
  match d with
  | [] => None
  | (k', v) :: d' => if decide (k' = k) then Some v else get k d'
  end.

(** [k in d] *)
Definition contains (k : string) (d : dict) : bool :=
  match get k d with Some _ => true | None => false end.

(** [d[k] = v]: an existing key keeps its position, a new key goes last. *)
Fixpoint set (k : string) (v : V) (d : dict) : dict :=
  match d with
  | [] => [(k, v)]
  | (k', v') :: d' =>
      if decide (k' = k) then (k, v) :: d' else (k', v') :: set k v d'
  end.

(** [del d[k]] for a key that is present. *)
Fixpoint del (k : string) (d : dict) : dict :=
  match d with
  | [] => []
  | (k', v') :: d' => if decide (k' = k) then d' else (k', v') :: del k d'
  end.

Definition keys (d : dict) : list string := d.*1.
Definition values (d : dict) : list V := d.*2.

(** The representation invariant of a dictionary: no key twice. *)
Definition wf (d : dict) : Prop := NoDup (keys d).
End ops.
End PyDict.

Abbreviation index_t := (list (string * list string)).

(** Every image reference held by some bucket, with multiplicity. *)
Definition all_refs (idx : index_t) : list string := concat (PyDict.values idx).

(** [list.remove(x)]: drops the first occurrence. *)
Fixpoint list_remove (x : string) (l : list string) : list string :=
  match l with
  | [] => []
  | y :: l' => if decide (y = x) then l' else y :: list_remove x l'
  end.

(** [x in l] *)
Definition list_in (x : string) (l : list string) : bool := bool_decide (x ∈ l).

(** ** JSON values, as [json.loads] returns them *)

Inductive json : Type :=
| JNull
| JBool (b : bool)
| JInt (n : Z)
| JFloat (literal : string)
| JStr (s : string)
| JList (l : list json)
| JDict (d : list (string * json)).

(** What [json.dumps] is given by [_save_cache]. *)
Record CacheDocument : Type := {
  doc_aspect_ratio_bucket_indices : index_t;
  doc_instance_images_path : list string;
}.

(** ** The logger *)

Inductive log_record : Type :=
| LogDebug (msg : string)
| LogInfo (msg : string)
| LogWarning (msg : string)
| LogWarningExc (msg : string) (e : exn).

(** ** The storage backend *)

(** An entry of what [list_files] returns: a [(dir, subdirs, files)] triple
    of a directory walk, or a bare key (the S3 backend returns keys). *)
Inductive listing_entry : Type :=
| Walk (dir : string) (subdirs : list string) (files : list string)
| Key (k : string).

(** Modelled from the spec: [BaseDataBackend] (helpers/data_backend/base.py)
    is not part of the sources. Its operations are those of the spec's
    StorageBackend contract, which are also the ones [S3DataBackend]
    implements. [getattr_remove] is the attribute lookup
    [data_backend.remove]: [None] when the class of the backend defines no
    such attribute. *)
Class BaseDataBackend (B : Type) : Type := {
  be_exists : B → string → bool;
  be_read : B → string → Res string;
  be_write : B → string → string → Res unit * B;
  be_delete : B → string → Res unit * B;
  be_list_files : B → string → string → Res (list listing_entry);
  getattr_remove : option (B → string → Res unit * B);
}.

(** Code outside the two files that the manager calls.
    [assign_bucket] is modelled from the spec (BucketAssigner): the
    aspect-ratio key of a file, [None] when the file cannot be read or
    decoded. [set_iter] is the iteration order of a Python set. *)
Class Collaborators (B : Type) : Type := {
  assign_bucket : B → string → option string;
  json_dumps : CacheDocument → string;
  json_loads : string → Res json;
  set_iter : gset string → list string;
}.

(** ** The manager and its monad *)

Section Manager.
Context {B : Type} `{!BaseDataBackend B, !Collaborators B}.

(** The attributes of a [BucketManager] that the methods below read or
    write. ([accelerator], [apply_dataset_padding] and [seen_images] are
    used by none of them.) *)
Record BucketManager : Type := {
  data_backend : B;
  batch_size : Z;
  instance_data_root : string;
  cache_file : string;
  aspect_ratio_bucket_indices : index_t;
  instance_images_path : gset string;
}.

Definition with_backend (b : B) (s : BucketManager) : BucketManager :=
  {| data_backend := b;
     batch_size := batch_size s;
     instance_data_root := instance_data_root s;
     cache_file := cache_file s;
     aspect_ratio_bucket_indices := aspect_ratio_bucket_indices s;
     instance_images_path := instance_images_path s |}.

Definition with_index (idx : index_t) (s : BucketManager) : BucketManager :=
  {| data_backend := data_backend s;
     batch_size := batch_size s;
     instance_data_root := instance_data_root s;
     cache_file := cache_file s;
     aspect_ratio_bucket_indices := idx;
     instance_images_path := instance_images_path s |}.

Definition with_images (im : gset string) (s : BucketManager) : BucketManager :=
  {| data_backend := data_backend s;
     batch_size := batch_size s;
     instance_data_root := instance_data_root s;
     cache_file := cache_file s;
     aspect_ratio_bucket_indices := aspect_ratio_bucket_indices s;
     instance_images_path := im |}.

(** A method: from the manager to an outcome and the manager afterwards.
    A raised exception keeps the mutations made before it. *)
Definition M (A : Type) : Type := BucketManager → Res A * BucketManager.

#[export] Instance M_ret : MRet M := λ A a s, (Ok a, s).
#[export] Instance M_bind : MBind M := λ A C k m s,
  match m s with
  | (Ok a, s') => k a s'
  | (Raise e, s') => (Raise e, s')
  end.

Definition raise {A} (e : exn) : M A := λ s, (Raise e, s).
Definition lift_res {A} (r : Res A) : M A := λ s, (r, s).
Definition get_self : M BucketManager := λ s, (Ok s, s).
Definition modify (f : BucketManager → BucketManager) : M unit :=
  λ s, (Ok (), f s).

(** [try: m  except Exception as e: h e] *)
Definition try_except {A} (m : M A) (h : exn → M A) : M A := λ s,
  match m s with
  | (Raise e, s') => h e s'
  | r => r
  end.

(** [for x in l: body x] *)
Fixpoint for_each {A} (l : list A) (body : A → M unit) : M unit :=
  match l with
  | [] => mret ()
  | x :: l' => body x ;; for_each l' body
  end.

(** *** Calls into the backend *)

Definition image_pattern : string := "*.[jJpP][pPnN][gG]".

Definition backend_list_files : M (list listing_entry) := λ s,
  (be_list_files (data_backend s) image_pattern (instance_data_root s), s).

Definition backend_write (key data : string) : M unit := λ s,
  let '(r, b) := be_write (data_backend s) key data in (r, with_backend b s).

(** [self.data_backend.remove(image_path)] *)
Definition backend_remove (image_path : string) : M unit :=
  match getattr_remove with
  | None => raise (AttributeError "remove")
  | Some remove => λ s,
      let '(r, b) := remove (data_backend s) image_path in
      (r, with_backend b s)
  end.

(** *** Dictionary accesses on [self.aspect_ratio_bucket_indices] *)

(** [self.aspect_ratio_bucket_indices[bucket]] *)
Definition getitem (bucket : string) : M (list string) :=
  s ← get_self;
  match PyDict.get bucket (aspect_ratio_bucket_indices s) with
  | Some images => mret images
  | None => raise (KeyError bucket)
  end.

(** [self.aspect_ratio_bucket_indices[bucket] = images] *)
Definition setitem (bucket : string) (images : list string) : M unit :=
  modify (λ s, with_index (PyDict.set bucket images (aspect_ratio_bucket_indices s)) s).

(** [del self.aspect_ratio_bucket_indices[bucket]] *)
Definition delitem (bucket : string) : M unit :=
  s ← get_self;
  if PyDict.contains bucket (aspect_ratio_bucket_indices s)
  then modify (with_index (PyDict.del bucket (aspect_ratio_bucket_indices s)))
  else raise (KeyError bucket).

(** [images.remove(image_path)] on a list: [ValueError] when absent. *)
Definition py_list_remove (x : string) (l : list string) : Res (list string) :=
  if list_in x l then Ok (list_remove x l) else Raise ValueError.

(** *** numpy's [array_split] on a list *)

Fixpoint split_at_sizes {A} (sizes : list nat) (l : list A) : list (list A) :=
  match sizes with
  | [] => []
  | n :: sizes' => take n l :: split_at_sizes sizes' (drop n l)
  end.

(** [np.array_split(l, sections)]: [len(l) % sections] shards of
    [len(l) // sections + 1] items, then shards of [len(l) // sections]. *)
Definition array_split {A} (l : list A) (sections : nat) : list (list A) :=
  let each := (length l / sections)%nat in
  let extras := (length l mod sections)%nat in
  split_at_sizes
    (replicate extras (S each) ++ replicate (sections - extras) each) l.

(** *** Discovery *)

(** The target [_, _, files] of the comprehensions over a listing: a
    triple gives its third component; a [str] unpacks only when it has
    three characters, and then [files] is the third one. *)
Definition unpack_files (e : listing_entry) : Res (list string) :=
  match e with
  | Walk _ _ files => Ok files
  | Key (String _ (String _ (String c EmptyString))) => Ok [String c EmptyString]
  | Key _ => Raise ValueError
  end.

(** [[file for _, _, files in data for file in files]] *)
Fixpoint flatten_files (data : list listing_entry) : Res (list string) :=
  match data with
  | [] => Ok []
  | e :: data' =>
      match unpack_files e with
      | Raise x => Raise x
      | Ok files =>
          match flatten_files data' with
          | Raise x => Raise x
          | Ok rest => Ok (files ++ rest)
          end
      end
  end.

Definition _discover_new_files : M (list string) :=
  all_image_files_data ← backend_list_files;
  all_image_files ← lift_res (flatten_files all_image_files_data);
  s ← get_self;
  mret (filter (λ file, file ∉ instance_images_path s) all_image_files).

(** *** Persistence *)

(** [str(path)] on a path that is a string already. *)
Definition py_str (path : string) : string := path.

Definition _enforce_min_bucket_size : M unit :=
  s ← get_self;
  for_each (aspect_ratio_bucket_indices s) (λ '(bucket, images),
    s' ← get_self;
    if (Z.of_nat (length images) <? batch_size s')%Z
    then delitem bucket
    else mret ()).

(** The document [_save_cache] encodes, from the attributes. *)
Definition cache_data (idx : index_t) (images : gset string) : CacheDocument :=
  {| doc_aspect_ratio_bucket_indices :=
       map (λ '(key, value), (key, map py_str value)) idx;
     doc_instance_images_path := map py_str (set_iter images) |}.

Definition _save_cache : M unit :=
  _enforce_min_bucket_size ;;
  s ← get_self;
  let cache_data_str :=
    json_dumps (cache_data (aspect_ratio_bucket_indices s) (instance_images_path s)) in
  backend_write (cache_file s) cache_data_str.

(** *** Bucketing new files *)

(** [d.setdefault(key, []).extend(value)] *)
Definition setdefault_extend (key : string) (value : list string)
    (d : index_t) : index_t :=
  PyDict.set key (default [] (PyDict.get key d) ++ value) d.

(** Modelled from the spec: [MultiaspectImage.process_for_bucket]
    (helpers/multiaspect/image.py) is not part of the sources. It asks the
    assigner for the bucket key of the file and inserts the file into the
    given partial index under that key; a failure of the assigner is
    caught and the file skipped. *)
Definition process_for_bucket (b : B) (file : string) (idx : index_t) : index_t :=
  match assign_bucket b file with
  | Some key => setdefault_extend key [file] idx
  | None => idx
  end.

(** The partial index a worker puts on the result queue. (The progress
    queue only drives the progress bar.) *)
Definition _bucket_worker (files : list string)
    (existing_files_set : gset string) (b : B) : index_t :=
  foldl (λ local file,
           if decide (file ∈ existing_files_set) then local
           else process_for_bucket b file local)
        [] files.

(** [set().union( *d.values() )]: the union of all bucket lists, the
    empty set when there is none. *)
Definition union_of_values (d : index_t) : gset string :=
  foldl (λ acc images, acc ∪ list_to_set images) ∅ (PyDict.values d).

(** [for key, value in update.items(): d.setdefault(key, []).extend(value)] *)
Definition merge_update (d : index_t) (update : index_t) : index_t :=
  foldl (λ acc '(key, value), setdefault_extend key value acc) d update.

Definition num_cpus : nat := 8.

(** One worker per shard of [np.array_split(new_files, num_cpus)]; the
    list holds what each of them puts on the result queue. *)
Definition worker_results (new_files : list string)
    (existing_files_set : gset string) (b : B) : list index_t :=
  map (λ file_shard, _bucket_worker file_shard existing_files_set b)
      (array_split new_files num_cpus).

(** What the aggregation loop takes from the result queue. The loop runs
    while a worker is alive, so a result that arrives after the last
    drain stays in the queue, and the results come in the order the
    workers finish: [drained] names the workers whose result is taken, in
    that order. A worker puts one result, so a worker counts once. *)
Definition received_results (drained : list nat) (results : list index_t)
    : list index_t :=
  omap (λ i, results !! i) (remove_dups drained).

Definition compute_aspect_ratio_bucket_indices (drained : list nat) : M unit :=
  new_files ← _discover_new_files;
  if bool_decide (new_files = []) then mret ()
  else
    s ← get_self;
    let existing_files_set := union_of_values (aspect_ratio_bucket_indices s) in
    let results := worker_results new_files existing_files_set (data_backend s) in
    modify (λ s, with_index
                   (foldl merge_update (aspect_ratio_bucket_indices s)
                          (received_results drained results)) s) ;;
    modify (λ s, with_images (instance_images_path s ∪ list_to_set new_files) s) ;;
    _save_cache.

(** *** Repair and refresh *)

Definition remove_image (image_path bucket : string) : M unit :=
  images ← getitem bucket;
  if list_in image_path images
  then
    images ← getitem bucket;
    images' ← lift_res (py_list_remove image_path images);
    setitem bucket images'
  else mret ().

Definition update_buckets_with_existing_files (existing_files : gset string) : M unit :=
  s ← get_self;
  for_each (aspect_ratio_bucket_indices s) (λ '(bucket, images),
    setitem bucket (filter (λ img, img ∈ existing_files) images)) ;;
  _save_cache.

Definition refresh_buckets (drained : list nat) : M unit :=
  compute_aspect_ratio_bucket_indices drained ;;
  all_image_files_data ← backend_list_files;
  existing_files ← lift_res (flatten_files all_image_files_data);
  update_buckets_with_existing_files (list_to_set existing_files).

Definition handle_incorrect_bucket (image_path bucket actual_bucket : string) : M unit :=
  remove_image image_path bucket ;;
  s ← get_self;
  if PyDict.contains actual_bucket (aspect_ratio_bucket_indices s)
  then
    images ← getitem actual_bucket;
    setitem actual_bucket (images ++ [image_path])
  else setitem actual_bucket [image_path].

Definition handle_small_image (image_path bucket : string)
    (delete_unwanted_images : bool) : M unit :=
  (if delete_unwanted_images
   then try_except (backend_remove image_path) (λ e, mret ())
   else mret ()) ;;
  remove_image image_path bucket.
End Manager.

(** ** Loading the cache

    [_load_cache] binds the two attributes to whatever the cache document
    holds, so it is modelled on JSON values; [as_manager] is the view of a
    well-shaped result as a [BucketManager]. *)

Section Loader.
Context {B : Type} `{!BaseDataBackend B, !Collaborators B}.

(** The two attributes [_load_cache] assigns; the set is given by the
    elements it is built from. *)
Record CacheAttrs : Type := {
  attr_aspect_ratio_bucket_indices : json;
  attr_instance_images_path : list json;
}.

(** [cache_data.get(key, dflt)]: only a dict has the method. *)
Definition json_get (cache_data : json) (key : string) (dflt : json) : Res json :=
  match cache_data with
  | JDict d => Ok (default dflt (PyDict.get key d))
  | _ => Raise (AttributeError "get")
  end.

Definition hashable (j : json) : bool :=
  match j with
  | JList _ | JDict _ => false
  | _ => true
  end.

Fixpoint chars (s : string) : list json :=
  match s with
  | EmptyString => []
  | String c s' => JStr (String c EmptyString) :: chars s'
  end.

(** [set(j)]: [j] must be iterable and its elements hashable. *)
Definition py_set (j : json) : Res (list json) :=
  let elems :=
    match j with
    | JList l => Ok l
    | JStr s => Ok (chars s)
    | JDict d => Ok (map (λ kv, JStr kv.1) d)
    | _ => Raise TypeError
    end in
  match elems with
  | Ok l => if forallb hashable l then Ok l else Raise TypeError
  | Raise e => Raise e
  end.

Definition load_warning : string :=
  "Error loading aspect bucket cache, creating new one: ".

Definition _load_cache (b : B) (cache_file : string) (self : CacheAttrs)
    : Res unit * CacheAttrs * list log_record :=
  if be_exists b cache_file then
    let '(cache_data, logged) :=
      match be_read b cache_file with
      | Raise e => (JDict [], [LogWarningExc load_warning e])
      | Ok cache_data_raw =>
          match json_loads cache_data_raw with
          | Raise e => (JDict [], [LogWarningExc load_warning e])
          | Ok cache_data => (cache_data, [])
          end
      end in
    match json_get cache_data "aspect_ratio_bucket_indices" (JDict []) with
    | Raise e => (Raise e, self, logged)
    | Ok idx =>
        let self' :=
          {| attr_aspect_ratio_bucket_indices := idx;
             attr_instance_images_path := attr_instance_images_path self |} in
        match json_get cache_data "instance_images_path" (JList []) with
        | Raise e => (Raise e, self', logged)
        | Ok paths =>
            match py_set paths with
            | Raise e => (Raise e, self', logged)
            | Ok images =>
                (Ok (),
                 {| attr_aspect_ratio_bucket_indices := idx;
                    attr_instance_images_path := images |},
                 logged)
            end
        end
    end
  else (Ok (), self, []).

(** What [__init__] sets before it calls [_load_cache]: [{}] and [set()]. *)
Definition empty_attrs : CacheAttrs :=
  {| attr_aspect_ratio_bucket_indices := JDict [];
     attr_instance_images_path := [] |}.

Definition __init__ (b : B) (cache_file : string)
    : Res unit * CacheAttrs * list log_record :=
  _load_cache b cache_file empty_attrs.

Definition as_strings (l : list json) : option (list string) :=
  mapM (λ j, match j with JStr s => Some s | _ => None end) l.

Definition as_index (j : json) : option index_t :=
  match j with
  | JDict d =>
      mapM (λ kv, match kv.2 with
                  | JList l => pair kv.1 <$> as_strings l
                  | _ => None
                  end) d
  | _ => None
  end.

Definition as_manager (b : B) (batch : Z) (root file : string) (a : CacheAttrs)
    : option (BucketManager (B:=B)) :=
  idx ← as_index (attr_aspect_ratio_bucket_indices a);
  images ← as_strings (attr_instance_images_path a);
  Some {| data_backend := b;
          batch_size := batch;
          instance_data_root := root;
          cache_file := file;
          aspect_ratio_bucket_indices := idx;
          instance_images_path := list_to_set images |}.
End Loader.

(** ** The S3 backend (helpers/data_backend/aws.py) *)

Module S3.
(** The boto3 client calls the backend makes, and [fnmatch.fnmatch]. *)
Class Boto3 (C : Type) : Type := {
  head_object : C → string → string → Res unit;
  get_object : C → string → string → Res string;
  put_object : C → string → string → string → Res unit * C;
  delete_object : C → string → string → Res unit * C;
  list_objects_v2 : C → string → string → Res (option (list string));
  fnmatch : string → string → bool;
}.

Section backend.
Context {C : Type} `{!Boto3 C}.

Record S3DataBackend : Type := {
  bucket_name : string;
  client : C;
}.

Definition with_client (c : C) (self : S3DataBackend) : S3DataBackend :=
  {| bucket_name := bucket_name self; client := c |}.

(** [path.split(sep)] *)
Fixpoint split_on (sep : ascii) (path : string) : list string :=
  match path with
  | EmptyString => [EmptyString]
  | String c path' =>
      if decide (c = sep) then EmptyString :: split_on sep path'
      else match split_on sep path' with
           | [] => [String c EmptyString]
           | seg :: segs => String c seg :: segs
           end
  end.

(** [path.split("/")[-1]] *)
Definition _convert_path_to_key (path : string) : string :=
  default EmptyString (last (split_on "/"%char path)).

Definition exists_ (self : S3DataBackend) (s3_key : string) : bool :=
  is_ok (head_object (client self) (bucket_name self) (_convert_path_to_key s3_key)).

Definition read (self : S3DataBackend) (s3_key : string) : Res string :=
  get_object (client self) (bucket_name self) (_convert_path_to_key s3_key).

Definition write (self : S3DataBackend) (s3_key data : string)
    : Res unit * S3DataBackend :=
  let '(r, c) :=
    put_object (client self) data (bucket_name self) (_convert_path_to_key s3_key) in
  (r, with_client c self).

Definition delete (self : S3DataBackend) (s3_key : string)
    : Res unit * S3DataBackend :=
  let '(r, c) :=
    delete_object (client self) (bucket_name self) (_convert_path_to_key s3_key) in
  (r, with_client c self).

Definition list_by_prefix (self : S3DataBackend) (prefix : string)
    : Res (list string) :=
  match list_objects_v2 (client self) (bucket_name self) prefix with
  | Ok contents => Ok (default [] contents)
  | Raise e => Raise e
  end.

Definition list_files (self : S3DataBackend) (str_pattern root : string)
    : Res (list string) :=
  match list_by_prefix self EmptyString with
  | Ok files => Ok (filter (λ file, fnmatch file str_pattern) files)
  | Raise e => Raise e
  end.

(** The names the class body of [S3DataBackend] defines. *)
Definition class_attributes : list string :=
  [ "__init__"; "exists"; "read"; "open_file"; "write"; "delete";
    "list_by_prefix"; "list_files"; "_convert_path_to_key"; "read_image";
    "create_directory"; "torch_load"; "torch_save" ].

Definition create_directory (self : S3DataBackend) (directory_path : string)
    : Res unit * S3DataBackend :=
  (Ok (), self).

(** [getattr(self, name)], for the attributes that can be called with
    one path and return nothing; [None] for a name that is not in
    [class_attributes] (the base class, as modelled above, brings no
    other name). *)
Definition getattr (name : string)
    : option (S3DataBackend → string → Res unit * S3DataBackend) :=
  if decide (name = "delete") then Some delete
  else if decide (name = "create_directory") then Some create_directory
  else None.

#[global] Instance S3_backend : BaseDataBackend S3DataBackend := {
  be_exists := exists_;
  be_read := read;
  be_write := write;
  be_delete := delete;
  be_list_files self str_pattern root :=
    match list_files self str_pattern root with
    | Ok files => Ok (map Key files)
    | Raise e => Raise e
    end;
  getattr_remove := getattr "remove";
}.
End backend.
End S3.

(** ** Vocabulary of the statements *)

(** The buckets a save keeps: those with at least [batch] images. *)
Definition prune (batch : Z) (idx : index_t) : index_t :=
  filter (λ kv, (batch ≤ Z.of_nat (length kv.2))%Z) idx.

(** Every bucket list cut down to the files of [existing]. *)
Definition restrict (existing : gset string) (idx : index_t) : index_t :=
  map (λ kv, (kv.1, filter (λ img, img ∈ existing) kv.2)) idx.

(** The keys of the buckets with fewer than [batch] images. *)
Definition small_keys (batch : Z) (idx : index_t) : list string :=
  (filter (λ kv, (Z.of_nat (length kv.2) < batch)%Z) idx).*1.

(** No image reference in the lists of two different buckets. *)
Definition no_cross_bucket_duplication (idx : index_t) : Prop :=
  ∀ b1 b2 l1 l2 x,
    PyDict.get b1 idx = Some l1 → PyDict.get b2 idx = Some l2 →
    x ∈ l1 → x ∈ l2 → b1 = b2.

(** No image reference twice in the whole index (and no key twice). *)
Definition each_ref_once (idx : index_t) : Prop :=
  PyDict.wf idx ∧ NoDup (all_refs idx).

Section Reachability.
Context {B : Type} `{!BaseDataBackend B, !Collaborators B}.

(** What the listing of the backend flattens to: the image files under
    the root, as the manager sees them. *)
Definition listed_files (s : BucketManager) : Res (list string) :=
  match be_list_files (data_backend s) image_pattern (instance_data_root s) with
  | Ok data => flatten_files data
  | Raise e => Raise e
  end.

(** What no method changes: the configuration of the manager. *)
Definition same_config (s s' : BucketManager (B:=B)) : Prop :=
  batch_size s' = batch_size s ∧ cache_file s' = cache_file s
  ∧ instance_data_root s' = instance_data_root s.

(** A call of one of the mutating methods. *)
Inductive call : Type :=
| Compute (drained : list nat)
| Refresh (drained : list nat)
| UpdateWithExisting (existing_files : gset string)
| SaveCache
| RemoveImage (image_path bucket : string)
| HandleIncorrectBucket (image_path bucket actual_bucket : string)
| HandleSmallImage (image_path bucket : string) (delete_unwanted_images : bool).

Definition run (c : call) : M unit :=
  match c with
  | Compute drained => compute_aspect_ratio_bucket_indices drained
  | Refresh drained => refresh_buckets drained
  | UpdateWithExisting existing_files =>
      update_buckets_with_existing_files existing_files
  | SaveCache => _save_cache
  | RemoveImage image_path bucket => remove_image image_path bucket
  | HandleIncorrectBucket image_path bucket actual_bucket =>
      handle_incorrect_bucket image_path bucket actual_bucket
  | HandleSmallImage image_path bucket delete_unwanted_images =>
      handle_small_image image_path bucket delete_unwanted_images
  end.

(** The manager after a sequence of calls, whatever their outcomes. *)
Definition after (calls : list call) (s : BucketManager) : BucketManager :=
  foldl (λ s c, (run c s).2) s calls.

(** The conditions under which a call is made as intended: discovery
    names no new file twice, and an image is moved out of a bucket that
    holds it. *)
Definition as_intended (c : call) (s : BucketManager) : Prop :=
  match c with
  | Compute _ | Refresh _ =>
      ∀ new_files, (_discover_new_files s).1 = Ok new_files → NoDup new_files
  | HandleIncorrectBucket image_path bucket _ =>
      ∃ images, PyDict.get bucket (aspect_ratio_bucket_indices s) = Some images
                ∧ image_path ∈ images
  | _ => True
  end.

(** One step of a run: a call made as intended, or a change of the
    files under the manager. *)
Inductive step : BucketManager → BucketManager → Prop :=
| step_call c s : as_intended c s → step s (run c s).2
| step_backend b s : step s (with_backend b s).
End Reachability.

(** ** Concrete collaborators

    Small implementations of the interfaces above, on which the methods
    can be run: an in-memory boto3 client, a directory-like backend, a
    glob matcher, an assigner that reads the bucket key from the file body
    and a JSON codec for the documents used below. *)

Module Fixtures.
Abbreviation store := (list (string * string)).

Inductive glob_token : Type :=
| GStar
| GOne
| GSet (cs : list ascii)
| GChar (c : ascii).

Fixpoint glob_parse (in_set : option (list ascii)) (p : list ascii) : list glob_token :=
  match p with
  | [] => []
  | c :: p' =>
      match in_set with
      | Some cs =>
          if decide (c = "]"%char) then GSet (reverse cs) :: glob_parse None p'
          else glob_parse (Some (c :: cs)) p'
      | None =>
          if decide (c = "*"%char) then GStar :: glob_parse None p'
          else if decide (c = "?"%char) then GOne :: glob_parse None p'
          else if decide (c = "["%char) then glob_parse (Some []) p'
          else GChar c :: glob_parse None p'
      end
  end.

Fixpoint glob_match (ts : list glob_token) (s : list ascii) : bool :=
  match ts with
  | [] => bool_decide (s = [])
  | GStar :: ts' =>
      (fix star (s : list ascii) : bool :=
         glob_match ts' s || match s with [] => false | _ :: s' => star s' end) s
  | GOne :: ts' =>
      match s with [] => false | _ :: s' => glob_match ts' s' end
  | GSet cs :: ts' =>
      match s with
      | [] => false
      | c :: s' => bool_decide (c ∈ cs) && glob_match ts' s'
      end
  | GChar c :: ts' =>
      match s with
      | [] => false
      | c' :: s' => bool_decide (c = c') && glob_match ts' s'
      end
  end.

Definition glob (name pattern : string) : bool :=
  glob_match (glob_parse None (String.list_ascii_of_string pattern))
             (String.list_ascii_of_string name).

Definition starts_with (prefix s : string) : bool := String.prefix prefix s.

(** An S3 bucket held in memory. Deleting a key that is not there
    succeeds, as the service does. *)
#[export] Instance mem_client : S3.Boto3 store := {
  S3.head_object c bucket key :=
    if PyDict.contains key c then Ok () else Raise (ClientError "404");
  S3.get_object c bucket key :=
    match PyDict.get key c with
    | Some body => Ok body
    | None => Raise (ClientError "NoSuchKey")
    end;
  S3.put_object c body bucket key := (Ok (), PyDict.set key body c);
  S3.delete_object c bucket key := (Ok (), PyDict.del key c);
  S3.list_objects_v2 c bucket prefix :=
    match filter (λ key, starts_with prefix key) (PyDict.keys c) with
    | [] => Ok None
    | found => Ok (Some found)
    end;
  S3.fnmatch := glob;
}.

(** A backend over one directory: the listing is a single walk triple;
    deleting a missing file raises; [remove] is bound to [delete]. *)
Record DirBackend : Type := { dir_files : store }.

Definition dir_delete (b : DirBackend) (key : string) : Res unit * DirBackend :=
  if PyDict.contains key (dir_files b)
  then (Ok (), {| dir_files := PyDict.del key (dir_files b) |})
  else (Raise (ClientError "NotFound"), b).

#[export] Instance dir_backend : BaseDataBackend DirBackend := {
  be_exists b key := PyDict.contains key (dir_files b);
  be_read b key :=
    match PyDict.get key (dir_files b) with
    | Some body => Ok body
    | None => Raise (ClientError "NotFound")
    end;
  be_write b key data := (Ok (), {| dir_files := PyDict.set key data (dir_files b) |});
  be_delete := dir_delete;
  be_list_files b pattern root :=
    Ok [Walk root [] (filter (λ key, glob key pattern) (PyDict.keys (dir_files b)))];
  getattr_remove := Some dir_delete;
}.

Definition dquote : string := String (ascii_of_nat 34) EmptyString.

Definition join (sep : string) (parts : list string) : string :=
  String.concat sep parts.

Definition dump_string (s : string) : string := dquote +:+ s +:+ dquote.

Definition dump_list (l : list string) : string :=
  "[" +:+ join ", " (map dump_string l) +:+ "]".

(** The encoding of [json.dumps], without the escapes. *)
Definition dumps (doc : CacheDocument) : string :=
  "{" +:+ dump_string "aspect_ratio_bucket_indices" +:+ ": {"
  +:+ join ", " (map (λ kv, dump_string kv.1 +:+ ": " +:+ dump_list kv.2)
                      (doc_aspect_ratio_bucket_indices doc))
  +:+ "}, " +:+ dump_string "instance_images_path" +:+ ": "
  +:+ dump_list (doc_instance_images_path doc) +:+ "}".

(** The decoder on the few documents used below; anything else is
    rejected. *)
Definition loads (raw : string) : Res json :=
  if decide (raw = "{}") then Ok (JDict [])
  else if decide (raw = "[]") then Ok (JList [])
  else if decide (raw = "null") then Ok JNull
  else Raise JSONDecodeError.

(** The body of an image file stands for its picture: the assigner reads
    the bucket key from it, and fails on an empty body. *)
Definition assign_from_body (files : store) (file : string) : option string :=
  match PyDict.get file files with
  | Some body => if decide (body = EmptyString) then None else Some body
  | None => None
  end.

#[export] Instance dir_collaborators : Collaborators DirBackend := {
  assign_bucket b file := assign_from_body (dir_files b) file;
  json_dumps := dumps;
  json_loads := loads;
  set_iter := elements;
}.

#[export] Instance s3_collaborators : Collaborators (S3.S3DataBackend (C:=store)) := {
  assign_bucket b file := assign_from_body (S3.client b) (S3._convert_path_to_key file);
  json_dumps := dumps;
  json_loads := loads;
  set_iter := elements;
}.

(** The scenario of the spec: three images of two aspect ratios. *)
Definition three_images : DirBackend :=
  {| dir_files := [("a.png", "1:1"); ("b.png", "1:1"); ("c.png", "16:9")] |}.

Definition two_images : DirBackend :=
  {| dir_files := [("a.png", "1:1"); ("b.png", "16:9")] |}.

Definition s3_bucket (objects : store) : S3.S3DataBackend :=
  {| S3.bucket_name := "training"; S3.client := objects |}.

Definition manager {B : Type} (b : B) (batch : Z) (idx : index_t)
    (images : list string) : BucketManager :=
  {| data_backend := b;
     batch_size := batch;
     instance_data_root := "/data";
     cache_file := "/data/cache.json";
     aspect_ratio_bucket_indices := idx;
     instance_images_path := list_to_set images |}.
End Fixtures.

Import Fixtures.

(** ** The rest of the manager *)

(** The accelerator of the accelerate library. [split_between_processes]
    stands for what its context manager yields to the calling process: the
    share of the list for its rank, with or without padding. *)
Class Accelerator (A : Type) : Type := {
  split_between_processes : A → list string → bool → list string;
}.

Section Rest_of_manager.
Context {B : Type} `{!BaseDataBackend B, !Collaborators B}.

(** [len(manager)] *)
Definition __len__ (s : BucketManager (B:=B)) : nat :=
  sum_list (length <$> PyDict.values (aspect_ratio_bucket_indices s)).

(** The attributes [accelerator] and [apply_dataset_padding], which no
    other method reads, are arguments here. The new dictionary is filled
    bucket by bucket and then replaces the index. *)
Definition split_buckets_between_processes {A : Type} `{!Accelerator A}
    (accelerator : A) (apply_dataset_padding : bool) : M (B:=B) unit :=
  s ← get_self;
  let new_aspect_ratio_bucket_indices :=
    foldl (λ new '(bucket, images),
             PyDict.set bucket
               (split_between_processes accelerator images apply_dataset_padding)
               new)
          [] (aspect_ratio_bucket_indices s) in
  modify (with_index new_aspect_ratio_bucket_indices).
End Rest_of_manager.

(** ** The seen images

    [seen_images] is a dictionary shared through a multiprocessing manager;
    each access is one call on it. No other method uses it, so it is a
    state of its own here. *)

Module Seen.
Definition mark_as_seen (image_path : string) (seen_images : gmap string bool)
    : gmap string bool :=
  <[image_path := true]> seen_images.

(** [self.seen_images.get(image_path, False)] *)
Definition is_seen (image_path : string) (seen_images : gmap string bool) : bool :=
  default false (seen_images !! image_path).

(** [self.seen_images.clear()] *)
Definition reset_seen_images (seen_images : gmap string bool) : gmap string bool :=
  ∅.

Inductive call : Type :=
| MarkAsSeen (image_path : string)
| ResetSeenImages.

Definition run (c : call) (seen_images : gmap string bool) : gmap string bool :=
  match c with
  | MarkAsSeen image_path => mark_as_seen image_path seen_images
  | ResetSeenImages => reset_seen_images seen_images
  end.

(** The dictionary after a sequence of calls, first call first. *)
Definition after (calls : list call) (seen_images : gmap string bool)
    : gmap string bool :=
  foldl (λ seen c, run c seen) seen_images calls.
End Seen.

(** ** Vocabulary of the further statements *)

(** The value [json.loads] gives back for what [json.dumps] made of a
    cache document: an object of the two fields, strings throughout. *)
Definition json_of_document (doc : CacheDocument) : json :=
  JDict
    [ ("aspect_ratio_bucket_indices",
       JDict (map (λ kv, (kv.1, JList (JStr <$> kv.2)))
                  (doc_aspect_ratio_bucket_indices doc)));
      ("instance_images_path", JList (JStr <$> doc_instance_images_path doc)) ].

(** No separator in a file name. *)
Definition no_slash (name : string) : Prop :=
  "/"%char ∉ String.list_ascii_of_string name.

(** ** Further concrete collaborators *)

Module Doubles.
(** A decoder that knows the encodings of the given documents, and
    otherwise decodes as [Fixtures.loads] does. *)
Definition loads_known (known : list CacheDocument) (raw : string) : Res json :=
  match list_find (λ doc, dumps doc = raw) known with
  | Some (_, doc) => Ok (json_of_document doc)
  | None => loads raw
  end.

Definition collaborators_knowing (known : list CacheDocument)
    : Collaborators DirBackend :=
  {| assign_bucket b file := assign_from_body (dir_files b) file;
     json_dumps := dumps;
     json_loads := loads_known known;
     set_iter := elements |}.

(** What a save of the spec's scenario writes. *)
Definition saved_document : CacheDocument :=
  {| doc_aspect_ratio_bucket_indices := [("1:1", ["a.png"; "b.png"])];
     doc_instance_images_path :=
       elements (list_to_set ["a.png"; "b.png"; "c.png"] : gset string) |}.

(** Two processes: the first takes the first half of a list (the longer
    one when the length is odd), the second the rest; with padding the
    second repeats its last item to the length of the first. *)
Inductive rank : Type := First | Second.

Definition halves (r : rank) (inputs : list string) (apply_padding : bool)
    : list string :=
  let n := length inputs in
  let h := (n - n / 2)%nat in
  match r with
  | First => take h inputs
  | Second =>
      let share := drop h inputs in
      if apply_padding
      then share ++ replicate (h - length share) (default EmptyString (last inputs))
      else share
  end.

#[export] Instance two_ranks : Accelerator rank := {
  split_between_processes := halves;
}.
End Doubles.

Import Doubles.

(** * Facts *)

(** ** Dictionaries *)

Section PyDict_facts.
Context {V : Type}.
Implicit Types (d : list (string * V)) (k : string) (v : V).

Lemma get_set_eq k v d : PyDict.get k (PyDict.set k v d) = Some v.
Proof.
  induction d as [|[k' v'] d IH]; simpl.
  - by rewrite decide_True.
  - destruct (decide (k' = k)) as [->|Hne]; simpl.
    + by rewrite decide_True.
    + by rewrite decide_False.
Qed.

Lemma get_set_ne k k' v d :
  k ≠ k' → PyDict.get k' (PyDict.set k v d) = PyDict.get k' d.
Proof.
  intros Hne. induction d as [|[k0 v0] d IH]; simpl.
  - by rewrite decide_False.
  - destruct (decide (k0 = k)) as [->|Hk]; simpl.
    + by rewrite !decide_False.
    + by rewrite IH.
Qed.

Lemma set_id k v d : PyDict.get k d = Some v → PyDict.set k v d = d.
Proof.
  induction d as [|[k' v'] d IH]; simpl; [done|].
  destruct (decide (k' = k)) as [->|Hne]; intros Hget.
  - by simplify_eq.
  - by rewrite IH.
Qed.

Lemma get_None k d : PyDict.get k d = None ↔ k ∉ PyDict.keys d.
Proof.
  unfold PyDict.keys. induction d as [|[k' v'] d IH]; simpl.
  - split; [intros _; apply not_elem_of_nil | done].
  - rewrite not_elem_of_cons. destruct (decide (k' = k)) as [->|Hne].
    + split; [done | by intros [? _]].
    + rewrite IH. split; [intros ?; split; [congruence|done] | by intros [_ ?]].
Qed.

Lemma get_Some_elem k v d : PyDict.get k d = Some v → (k, v) ∈ d.
Proof.
  induction d as [|[k' v'] d IH]; simpl; [done|].
  destruct (decide (k' = k)) as [->|Hne].
  - intros [= ->]. apply list_elem_of_here.
  - intros Hget. apply list_elem_of_further. auto.
Qed.

Lemma elem_get k v d : PyDict.wf d → (k, v) ∈ d → PyDict.get k d = Some v.
Proof.
  unfold PyDict.wf, PyDict.keys.
  induction d as [|[k' v'] d IH]; simpl; intros Hwf Hin.
  - by apply elem_of_nil in Hin.
  - apply NoDup_cons in Hwf as [Hk' Hwf].
    apply elem_of_cons in Hin as [[= -> ->]|Hin].
    + by rewrite decide_True.
    + rewrite decide_False; [by apply IH|].
      intros ->. apply Hk'. apply list_elem_of_fmap. by exists (k, v).
Qed.

Lemma contains_true k d : PyDict.contains k d = true ↔ is_Some (PyDict.get k d).
Proof.
  unfold PyDict.contains. destruct (PyDict.get k d); split; done.
Qed.

Lemma contains_false k d : PyDict.contains k d = false ↔ PyDict.get k d = None.
Proof. unfold PyDict.contains. by destruct (PyDict.get k d). Qed.

Lemma keys_set k v d :
  PyDict.keys (PyDict.set k v d) =
  if PyDict.contains k d then PyDict.keys d else PyDict.keys d ++ [k].
Proof.
  unfold PyDict.keys, PyDict.contains.
  induction d as [|[k' v'] d IH]; [done|].
  cbn [PyDict.set PyDict.get].
  destruct (decide (k' = k)) as [->|Hne]; [done|].
  rewrite !fmap_cons, IH. by destruct (PyDict.get k d).
Qed.

Lemma wf_set k v d : PyDict.wf d → PyDict.wf (PyDict.set k v d).
Proof.
  unfold PyDict.wf. rewrite keys_set. unfold PyDict.contains.
  destruct (PyDict.get k d) eqn:Hget; [done|].
  intros Hwf. apply NoDup_app. split_and!; [done | | apply NoDup_singleton].
  intros x Hx ->%list_elem_of_singleton. by apply get_None in Hget.
Qed.

Lemma del_sublist k d : PyDict.del k d `sublist_of` d.
Proof.
  induction d as [|[k' v'] d IH]; simpl; [done|].
  destruct (decide (k' = k)); [by apply sublist_cons | by apply sublist_skip].
Qed.

Lemma wf_sublist d d' : d' `sublist_of` d → PyDict.wf d → PyDict.wf d'.
Proof.
  unfold PyDict.wf, PyDict.keys. intros Hsub Hwf.
  eapply sublist_NoDup; [exact Hwf|]. by apply fmap_sublist.
Qed.

Lemma wf_del k d : PyDict.wf d → PyDict.wf (PyDict.del k d).
Proof. apply wf_sublist, del_sublist. Qed.

Lemma wf_filter (P : string * V → Prop) `{!∀ kv, Decision (P kv)} d :
  PyDict.wf d → PyDict.wf (filter P d).
Proof. apply wf_sublist, sublist_filter. Qed.

Lemma wf_cons k v d :
  PyDict.wf ((k, v) :: d) ↔ (k ∉ PyDict.keys d) ∧ PyDict.wf d.
Proof. unfold PyDict.wf, PyDict.keys. rewrite fmap_cons. apply NoDup_cons. Qed.

Lemma filter_keys_id k d :
  k ∉ PyDict.keys d → filter (λ kv, kv.1 ≠ k) d = d.
Proof.
  unfold PyDict.keys. induction d as [|[k' v'] d IH]; [done|].
  rewrite fmap_cons, not_elem_of_cons. intros [Hne Hnin].
  rewrite filter_cons_True by (simpl; intros Heq; by apply Hne). by rewrite IH.
Qed.

(** On a dictionary, deleting a key drops its one entry. *)
Lemma del_filter k d :
  PyDict.wf d → PyDict.del k d = filter (λ kv, kv.1 ≠ k) d.
Proof.
  induction d as [|[k' v'] d IH]; [done|].
  rewrite wf_cons. intros [Hk' Hwf]. cbn [PyDict.del].
  destruct (decide (k' = k)) as [->|Hne].
  - rewrite filter_cons_False by (simpl; tauto).
    by rewrite filter_keys_id.
  - rewrite filter_cons_True by done. by rewrite IH.
Qed.

Lemma get_filter (P : string * V → Prop) `{!∀ kv, Decision (P kv)} k d :
  PyDict.wf d →
  PyDict.get k (filter P d) =
  match PyDict.get k d with
  | Some v => if decide (P (k, v)) then Some v else None
  | None => None
  end.
Proof.
  induction d as [|[k' v'] d IH]; [done|].
  rewrite wf_cons. intros [Hk' Hwf]. cbn [PyDict.get].
  destruct (decide (k' = k)) as [->|Hne].
  - destruct (decide (P (k, v'))) as [HP|HP].
    + rewrite filter_cons_True by done. cbn [PyDict.get]. by rewrite decide_True.
    + rewrite filter_cons_False by done.
      apply get_None. intros Hin. apply Hk'.
      unfold PyDict.keys in *. apply list_elem_of_fmap in Hin as ([k0 v0] & -> & Hin).
      apply list_elem_of_filter in Hin as [_ Hin].
      apply list_elem_of_fmap. by exists (k0, v0).
  - rewrite <-IH by done. destruct (decide (P (k', v'))).
    + rewrite filter_cons_True by done. cbn [PyDict.get]. by rewrite decide_False.
    + by rewrite filter_cons_False.
Qed.

Lemma get_map (f : V → V) k d :
  PyDict.get k (map (λ kv, (kv.1, f kv.2)) d) = f <$> PyDict.get k d.
Proof.
  induction d as [|[k' v'] d IH]; [done|]. cbn [map PyDict.get fst snd].
  by destruct (decide (k' = k)).
Qed.

Lemma keys_map (f : V → V) d :
  PyDict.keys (map (λ kv, (kv.1, f kv.2)) d) = PyDict.keys d.
Proof.
  unfold PyDict.keys. induction d as [|[k' v'] d IH]; [done|].
  cbn [map]. by rewrite !fmap_cons, IH.
Qed.
End PyDict_facts.

(** ** Lists *)

Lemma filter_ext_in {A} (P Q : A → Prop) `{!∀ x, Decision (P x), !∀ x, Decision (Q x)}
    (l : list A) :
  (∀ x, x ∈ l → P x ↔ Q x) → filter P l = filter Q l.
Proof.
  induction l as [|a l IH]; intros Hext; [done|].
  rewrite !filter_cons, IH.
  - apply decide_ext, Hext, list_elem_of_here.
  - intros x Hx. by apply Hext, list_elem_of_further.
Qed.

Lemma filter_id_in {A} (P : A → Prop) `{!∀ x, Decision (P x)} (l : list A) :
  (∀ x, x ∈ l → P x) → filter P l = l.
Proof.
  induction l as [|a l IH]; intros HP; [done|].
  rewrite filter_cons_True by apply HP, list_elem_of_here.
  rewrite IH; [done|]. intros x Hx. by apply HP, list_elem_of_further.
Qed.

Lemma filter_nil_in {A} (P : A → Prop) `{!∀ x, Decision (P x)} (l : list A) :
  (∀ x, x ∈ l → ¬ P x) → filter P l = [].
Proof.
  induction l as [|a l IH]; intros HP; [done|].
  rewrite filter_cons_False by apply HP, list_elem_of_here.
  apply IH. intros x Hx. by apply HP, list_elem_of_further.
Qed.

Lemma list_remove_notin x l : x ∉ l → list_remove x l = l.
Proof.
  induction l as [|y l IH]; [done|].
  rewrite not_elem_of_cons. intros [Hne Hnin]. cbn [list_remove].
  rewrite decide_False by done. by rewrite IH.
Qed.

Lemma list_remove_perm x l : x ∈ l → l ≡ₚ x :: list_remove x l.
Proof.
  induction l as [|y l IH]; [by intros ?%elem_of_nil|].
  cbn [list_remove]. destruct (decide (y = x)) as [->|Hne]; [done|].
  intros [?|Hin]%elem_of_cons; [congruence|].
  rewrite (IH Hin) at 1. apply Permutation_swap.
Qed.

Lemma list_remove_first x l :
  x ∈ l →
  ∃ before after,
    l = before ++ x :: after ∧ (x ∉ before) ∧ list_remove x l = before ++ after.
Proof.
  induction l as [|y l IH]; [by intros ?%elem_of_nil|].
  cbn [list_remove]. destruct (decide (y = x)) as [->|Hne].
  - intros _. exists [], l. split_and!; [done| apply not_elem_of_nil | done].
  - intros [?|Hin]%elem_of_cons; [congruence|].
    destruct (IH Hin) as (before & after & -> & Hnin & ->).
    exists (y :: before), after. split_and!; [done| |done].
    rewrite not_elem_of_cons. split; [congruence | done].
Qed.

Lemma list_remove_sublist x l : list_remove x l `sublist_of` l.
Proof.
  induction l as [|y l IH]; [done|]. cbn [list_remove].
  destruct (decide (y = x)); [by apply sublist_cons | by apply sublist_skip].
Qed.

(** ** The monad *)

Section Monad_facts.
Context {B : Type} `{!BaseDataBackend B, !Collaborators B}.
Implicit Types (s : BucketManager (B:=B)).

Lemma bind_ok {A C} (m : M A) (k : A → M C) s a s' :
  m s = (Ok a, s') → (m ≫= k) s = k a s'.
Proof. unfold mbind, M_bind. by intros ->. Qed.

Lemma bind_raise {A C} (m : M A) (k : A → M C) s e s' :
  m s = (Raise e, s') → (m ≫= k) s = (Raise e, s').
Proof. unfold mbind, M_bind. by intros ->. Qed.

Lemma with_index_id s : with_index (aspect_ratio_bucket_indices s) s = s.
Proof. by destruct s. Qed.

Lemma with_images_id s : with_images (instance_images_path s) s = s.
Proof. by destruct s. Qed.

Lemma with_index_twice idx idx' s :
  with_index idx (with_index idx' s) = with_index idx s.
Proof. done. Qed.

Lemma getitem_some bucket images s :
  PyDict.get bucket (aspect_ratio_bucket_indices s) = Some images →
  getitem bucket s = (Ok images, s).
Proof. unfold getitem, mbind, M_bind. cbn. by intros ->. Qed.

Lemma getitem_none bucket s :
  PyDict.get bucket (aspect_ratio_bucket_indices s) = None →
  getitem bucket s = (Raise (KeyError bucket), s).
Proof. unfold getitem, mbind, M_bind. cbn. by intros ->. Qed.

Lemma delitem_some bucket images s :
  PyDict.get bucket (aspect_ratio_bucket_indices s) = Some images →
  delitem bucket s
  = (Ok (), with_index (PyDict.del bucket (aspect_ratio_bucket_indices s)) s).
Proof.
  unfold delitem, mbind, M_bind, PyDict.contains. cbn. by intros ->.
Qed.

(** *** The eviction loop *)

Lemma eviction_loop snapshot s :
  PyDict.wf snapshot → PyDict.wf (aspect_ratio_bucket_indices s) →
  (∀ k v, (k, v) ∈ snapshot → PyDict.get k (aspect_ratio_bucket_indices s) = Some v) →
  for_each snapshot (λ '(bucket, images),
    s' ← get_self;
    if (Z.of_nat (length images) <? batch_size s')%Z
    then delitem bucket
    else mret ()) s
  = (Ok (), with_index
              (filter (λ kv, kv.1 ∉ small_keys (batch_size s) snapshot)
                      (aspect_ratio_bucket_indices s)) s).
Proof.
  revert s. induction snapshot as [|[k v] snapshot IH]; intros s Hsnap Hwf Hget.
  - cbn. rewrite filter_id_in; [by rewrite with_index_id|].
    intros ? _. apply not_elem_of_nil.
  - apply wf_cons in Hsnap as [Hk Hsnap]. cbn [for_each].
    unfold mbind at 1, M_bind at 1. unfold mbind at 1, M_bind at 1.
    cbn [get_self]. unfold small_keys. rewrite filter_cons. cbn [snd length].
    assert (Hrest : ∀ k' v', (k', v') ∈ snapshot → k' ≠ k).
    { intros k' v' Hin ->. apply Hk. apply list_elem_of_fmap. by exists (k, v'). }
    destruct (Z.ltb_spec (Z.of_nat (length v)) (batch_size s)) as [Hlt|Hge].
    + rewrite decide_True by done.
      rewrite (delitem_some k v) by apply Hget, list_elem_of_here.
      rewrite IH; cbn [aspect_ratio_bucket_indices with_index batch_size].
      * rewrite with_index_twice. f_equal. f_equal.
        rewrite del_filter, list_filter_filter by done.
        apply list_filter_iff. intros [k' v']. cbn [fst].
        rewrite fmap_cons, not_elem_of_cons. cbn [fst]. unfold small_keys. tauto.
      * done.
      * by apply wf_del.
      * intros k' v' Hin. rewrite del_filter, get_filter by done.
        rewrite (Hget k' v') by by apply list_elem_of_further.
        rewrite decide_True; [done|]. cbn. by eapply Hrest.
    + rewrite decide_False by lia. cbn [mret M_ret]. apply IH; [done..|].
      intros k' v' Hin. by apply Hget, list_elem_of_further.
Qed.

Lemma small_keys_spec batch idx k v :
  PyDict.wf idx → (k, v) ∈ idx →
  k ∈ small_keys batch idx ↔ (Z.of_nat (length v) < batch)%Z.
Proof.
  intros Hwf Hin. unfold small_keys. rewrite list_elem_of_fmap. split.
  - intros ([k' v'] & -> & [Hlt Hin']%list_elem_of_filter). cbn in *.
    apply (elem_get _ _ _ Hwf) in Hin, Hin'. by simplify_eq.
  - intros Hlt. exists (k, v). split; [done|]. by apply list_elem_of_filter.
Qed.

Lemma _enforce_min_bucket_size_spec s :
  PyDict.wf (aspect_ratio_bucket_indices s) →
  _enforce_min_bucket_size s
  = (Ok (), with_index (prune (batch_size s) (aspect_ratio_bucket_indices s)) s).
Proof.
  intros Hwf. unfold _enforce_min_bucket_size.
  unfold mbind at 1, M_bind at 1. cbn [get_self].
  rewrite eviction_loop; [|done|done|intros k v; by apply elem_get].
  f_equal. f_equal. unfold prune. apply filter_ext_in. intros [k v] Hin. cbn [fst snd].
  rewrite (small_keys_spec _ _ _ v) by done. lia.
Qed.

(** *** The stale-entry loop *)

Lemma set_middle (pre post : index_t) k v v' :
  k ∉ PyDict.keys pre →
  PyDict.set k v' (pre ++ (k, v) :: post) = pre ++ (k, v') :: post.
Proof.
  unfold PyDict.keys. induction pre as [|[k0 v0] pre IH]; intros Hk.
  - cbn. by rewrite decide_True.
  - rewrite fmap_cons, not_elem_of_cons in Hk. destruct Hk as [Hne Hk].
    cbn. rewrite decide_False by done. by rewrite IH.
Qed.

Lemma stale_loop (P : string → Prop) `{!∀ x, Decision (P x)} pre snapshot s :
  aspect_ratio_bucket_indices s = pre ++ snapshot →
  PyDict.wf (pre ++ snapshot) →
  for_each snapshot (λ '(bucket, images), setitem bucket (filter P images)) s
  = (Ok (), with_index (pre ++ map (λ kv, (kv.1, filter P kv.2)) snapshot) s).
Proof.
  revert pre s. induction snapshot as [|[k v] snapshot IH]; intros pre s Hidx Hwf.
  - cbn. by rewrite <-Hidx, with_index_id.
  - cbn [for_each]. unfold mbind at 1, M_bind at 1.
    unfold setitem at 1, modify. rewrite Hidx.
    assert (Hk : k ∉ PyDict.keys pre).
    { unfold PyDict.wf, PyDict.keys in *. rewrite fmap_app, fmap_cons in Hwf.
      apply NoDup_app in Hwf as (_ & Hdisj & _). intros Hin.
      apply (Hdisj _ Hin), list_elem_of_here. }
    rewrite set_middle by done.
    rewrite (IH (pre ++ [(k, filter P v)])).
    + rewrite with_index_twice. cbn [map fst snd]. by rewrite <-app_assoc.
    + cbn. by rewrite <-app_assoc.
    + rewrite <-app_assoc. cbn [app].
      unfold PyDict.wf, PyDict.keys in *.
      by rewrite fmap_app, fmap_cons in *.
Qed.

Lemma wf_restrict existing idx : PyDict.wf idx → PyDict.wf (restrict existing idx).
Proof. unfold PyDict.wf, restrict. by rewrite keys_map. Qed.

Lemma wf_prune batch idx : PyDict.wf idx → PyDict.wf (prune batch idx).
Proof. apply wf_filter. Qed.

(** *** Saving *)

Lemma _save_cache_spec s :
  PyDict.wf (aspect_ratio_bucket_indices s) →
  _save_cache s =
  let idx := prune (batch_size s) (aspect_ratio_bucket_indices s) in
  let w := be_write (data_backend s) (cache_file s)
             (json_dumps (cache_data idx (instance_images_path s))) in
  (w.1, with_backend w.2 (with_index idx s)).
Proof.
  intros Hwf. unfold _save_cache.
  unfold mbind at 1, M_bind at 1. rewrite _enforce_min_bucket_size_spec by done.
  unfold mbind, M_bind. cbn [get_self]. unfold backend_write.
  cbn [data_backend with_index cache_file aspect_ratio_bucket_indices instance_images_path].
  by destruct (be_write _ _ _).
Qed.

Lemma update_buckets_with_existing_files_spec existing s :
  PyDict.wf (aspect_ratio_bucket_indices s) →
  update_buckets_with_existing_files existing s =
  _save_cache (with_index (restrict existing (aspect_ratio_bucket_indices s)) s).
Proof.
  intros Hwf. unfold update_buckets_with_existing_files.
  unfold mbind at 1, M_bind at 1. cbn [get_self].
  unfold mbind at 1, M_bind at 1.
  by rewrite (stale_loop _ [] _ s).
Qed.
End Monad_facts.

(** * The repair operations *)

Section Repair.
Context {B : Type} `{!BaseDataBackend B, !Collaborators B}.
Implicit Types (s : BucketManager (B:=B)).

Lemma remove_image_some image_path bucket images s :
  PyDict.get bucket (aspect_ratio_bucket_indices s) = Some images →
  remove_image image_path bucket s =
  (Ok (), if list_in image_path images
          then with_index (PyDict.set bucket (list_remove image_path images)
                                      (aspect_ratio_bucket_indices s)) s
          else s).
Proof.
  intros Hget. unfold remove_image.
  rewrite (bind_ok _ _ _ _ _ (getitem_some _ _ _ Hget)).
  destruct (list_in image_path images) eqn:Hin; [|done].
  rewrite (bind_ok _ _ _ _ _ (getitem_some _ _ _ Hget)).
  unfold py_list_remove. rewrite Hin. done.
Qed.

Lemma remove_image_none image_path bucket s :
  PyDict.get bucket (aspect_ratio_bucket_indices s) = None →
  remove_image image_path bucket s = (Raise (KeyError bucket), s).
Proof.
  intros Hget. unfold remove_image.
  by rewrite (bind_raise _ _ _ _ _ (getitem_none _ _ Hget)).
Qed.

(** C3, as amended: on a bucket that is a key of the index,
    [remove_image] never raises, touches nothing but that bucket's list,
    takes the first occurrence of the image out of it when there is one
    (the elements before and after it stay, in order) and changes
    nothing otherwise. *)
Theorem remove_image_on_present_bucket image_path bucket images s :
  PyDict.get bucket (aspect_ratio_bucket_indices s) = Some images →
  ∃ idx',
    remove_image image_path bucket s = (Ok (), with_index idx' s)
    ∧ PyDict.get bucket idx' = Some (list_remove image_path images)
    ∧ (∀ b, b ≠ bucket →
         PyDict.get b idx' = PyDict.get b (aspect_ratio_bucket_indices s))
    ∧ PyDict.keys idx' = PyDict.keys (aspect_ratio_bucket_indices s)
    ∧ (image_path ∈ images →
         ∃ before after,
           images = before ++ image_path :: after ∧ (image_path ∉ before)
           ∧ list_remove image_path images = before ++ after)
    ∧ (image_path ∉ images → idx' = aspect_ratio_bucket_indices s).
Proof.
  intros Hget. rewrite (remove_image_some _ _ _ _ Hget).
  unfold list_in. destruct (bool_decide_reflect (image_path ∈ images)) as [Hin|Hnin].
  - eexists. split; [done|]. split_and!.
    + apply get_set_eq.
    + intros b Hb. by apply get_set_ne.
    + rewrite keys_set. by rewrite (proj2 (contains_true _ _)) by (by rewrite Hget).
    + intros _. by apply list_remove_first.
    + done.
  - exists (aspect_ratio_bucket_indices s). rewrite with_index_id.
    split; [done|]. split_and!; try done.
    by rewrite list_remove_notin.
Qed.

Lemma handle_incorrect_bucket_some image_path bucket actual_bucket images s :
  PyDict.get bucket (aspect_ratio_bucket_indices s) = Some images →
  handle_incorrect_bucket image_path bucket actual_bucket s =
  (Ok (), with_index
            (setdefault_extend actual_bucket [image_path]
               (PyDict.set bucket (list_remove image_path images)
                           (aspect_ratio_bucket_indices s))) s).
Proof.
  intros Hget. unfold handle_incorrect_bucket.
  rewrite (bind_ok _ _ _ _ _ (remove_image_some image_path _ _ _ Hget)).
  set (idx1 := PyDict.set bucket (list_remove image_path images)
                          (aspect_ratio_bucket_indices s)).
  assert (Hs1 : (if list_in image_path images then with_index idx1 s else s)
                = with_index idx1 s).
  { unfold list_in.
    destruct (bool_decide_reflect (image_path ∈ images)) as [Hin|Hnin]; [done|].
    subst idx1. rewrite list_remove_notin by done.
    by rewrite set_id, with_index_id. }
  rewrite Hs1. unfold mbind at 1, M_bind at 1.
  cbn [get_self aspect_ratio_bucket_indices with_index].
  unfold setdefault_extend, PyDict.contains.
  destruct (PyDict.get actual_bucket idx1) as [images'|] eqn:Hget'.
  - rewrite (bind_ok _ _ (with_index idx1 s) images' (with_index idx1 s))
      by by apply getitem_some.
    done.
  - done.
Qed.

(** C5: [handle_incorrect_bucket] takes the image out of the list of
    [bucket] and appends it to the list of [actual_bucket], which it
    creates, as the last bucket, when the index has no such key; every
    other bucket keeps its list. On the index of the spec's scenario it
    yields the index the spec gives. *)
Theorem handle_incorrect_bucket_moves_image :
  (∀ image_path bucket actual_bucket images s,
     PyDict.get bucket (aspect_ratio_bucket_indices s) = Some images →
     ∃ idx',
       handle_incorrect_bucket image_path bucket actual_bucket s
       = (Ok (), with_index idx' s)
       ∧ (bucket ≠ actual_bucket →
            PyDict.get bucket idx' = Some (list_remove image_path images)
            ∧ PyDict.get actual_bucket idx'
              = Some (default [] (PyDict.get actual_bucket (aspect_ratio_bucket_indices s))
                      ++ [image_path]))
       ∧ (bucket = actual_bucket →
            PyDict.get actual_bucket idx'
            = Some (list_remove image_path images ++ [image_path]))
       ∧ (∀ b, b ≠ bucket → b ≠ actual_bucket →
            PyDict.get b idx' = PyDict.get b (aspect_ratio_bucket_indices s))
       ∧ PyDict.keys idx'
         = if PyDict.contains actual_bucket (aspect_ratio_bucket_indices s)
           then PyDict.keys (aspect_ratio_bucket_indices s)
           else PyDict.keys (aspect_ratio_bucket_indices s) ++ [actual_bucket])
  ∧ (∀ s,
       handle_incorrect_bucket "x" "1:1" "16:9"
         (with_index [("1:1", ["x"; "y"]); ("16:9", ["z"])] s)
       = (Ok (), with_index [("1:1", ["y"]); ("16:9", ["z"; "x"])] s)).
Proof.
  split.
  - intros image_path bucket actual_bucket images s Hget.
    rewrite (handle_incorrect_bucket_some _ _ _ _ _ Hget).
    eexists. split; [done|]. unfold setdefault_extend.
    assert (Hcont : PyDict.contains bucket (aspect_ratio_bucket_indices s) = true)
      by (apply contains_true; by rewrite Hget).
    split_and!.
    + intros Hne. split.
      * rewrite get_set_ne by done. apply get_set_eq.
      * rewrite get_set_eq. by rewrite get_set_ne.
    + intros <-. by rewrite get_set_eq, get_set_eq.
    + intros b Hb Hab. by rewrite !get_set_ne.
    + rewrite !keys_set, Hcont. unfold PyDict.contains.
      destruct (decide (bucket = actual_bucket)) as [<-|Hne].
      * by rewrite get_set_eq, Hget.
      * by rewrite get_set_ne.
  - intros s. by rewrite (handle_incorrect_bucket_some _ _ _ ["x"; "y"]).
Qed.
End Repair.

(** * Saving and pruning *)

Section Persistence.
Context {B : Type} `{!BaseDataBackend B, !Collaborators B}.
Implicit Types (s : BucketManager (B:=B)).

Lemma get_prune batch idx bucket :
  PyDict.wf idx →
  PyDict.get bucket (prune batch idx) =
  match PyDict.get bucket idx with
  | Some images =>
      if decide (Z.of_nat (length images) < batch)%Z then None else Some images
  | None => None
  end.
Proof.
  intros Hwf. unfold prune. rewrite get_filter by done.
  destruct (PyDict.get bucket idx) as [images|]; [|done]. cbn [snd].
  repeat case_decide; done || lia.
Qed.

Lemma doc_index_of_cache_data idx images :
  doc_aspect_ratio_bucket_indices (cache_data idx images) = idx.
Proof.
  cbn. rewrite <-(map_id idx) at 2. apply map_ext. intros [k v].
  unfold py_str. by rewrite map_id.
Qed.

(** C4: [_save_cache] drops from the index, and so from the document it
    hands to the backend, every bucket with fewer than [batch_size]
    images, keeps every other bucket with its list, adds none, and leaves
    the discovered set as it was. *)
Theorem save_cache_enforces_min_bucket_size s :
  PyDict.wf (aspect_ratio_bucket_indices s) →
  let s' := (_save_cache s).2 in
  let doc := cache_data (aspect_ratio_bucket_indices s') (instance_images_path s') in
  ((_save_cache s).1, data_backend s')
    = be_write (data_backend s) (cache_file s) (json_dumps doc)
  ∧ instance_images_path s' = instance_images_path s
  ∧ (∀ bucket images,
       PyDict.get bucket (aspect_ratio_bucket_indices s) = Some images →
       if decide (Z.of_nat (length images) < batch_size s)%Z
       then PyDict.get bucket (aspect_ratio_bucket_indices s') = None
            ∧ PyDict.get bucket (doc_aspect_ratio_bucket_indices doc) = None
       else PyDict.get bucket (aspect_ratio_bucket_indices s') = Some images
            ∧ PyDict.get bucket (doc_aspect_ratio_bucket_indices doc) = Some images)
  ∧ (∀ bucket,
       PyDict.get bucket (aspect_ratio_bucket_indices s) = None →
       PyDict.get bucket (aspect_ratio_bucket_indices s') = None).
Proof.
  intros Hwf s' doc. subst doc s'. rewrite doc_index_of_cache_data.
  rewrite _save_cache_spec by done.
  cbn [fst snd aspect_ratio_bucket_indices instance_images_path data_backend
       with_backend with_index].
  split_and!.
  - by destruct (be_write _ _ _).
  - done.
  - intros bucket images Hget. rewrite get_prune, Hget by done.
    by case_decide.
  - intros bucket Hget. by rewrite get_prune, Hget.
Qed.

Lemma get_restrict existing idx bucket :
  PyDict.get bucket (restrict existing idx)
  = filter (λ img, img ∈ existing) <$> PyDict.get bucket idx.
Proof. apply get_map. Qed.

Lemma update_buckets_index existing s :
  PyDict.wf (aspect_ratio_bucket_indices s) →
  aspect_ratio_bucket_indices (update_buckets_with_existing_files existing s).2
  = prune (batch_size s) (restrict existing (aspect_ratio_bucket_indices s)).
Proof.
  intros Hwf. rewrite update_buckets_with_existing_files_spec by done.
  rewrite _save_cache_spec by by apply wf_restrict.
  done.
Qed.

(** C6, as amended: after [update_buckets_with_existing_files] no bucket
    holds a file outside [existing_files]; a bucket whose list, cut down
    to the existing files, still has [batch_size] entries keeps exactly
    those, in order, and a bucket left with fewer is dropped whole. *)
Theorem update_removes_stale_keeps_full_buckets existing_files s :
  PyDict.wf (aspect_ratio_bucket_indices s) →
  let s' := (update_buckets_with_existing_files existing_files s).2 in
  (∀ bucket images x,
     PyDict.get bucket (aspect_ratio_bucket_indices s') = Some images →
     x ∈ images → x ∈ existing_files)
  ∧ (∀ bucket images,
       PyDict.get bucket (aspect_ratio_bucket_indices s) = Some images →
       let kept := filter (λ img, img ∈ existing_files) images in
       PyDict.get bucket (aspect_ratio_bucket_indices s')
       = if decide (Z.of_nat (length kept) < batch_size s)%Z
         then None else Some kept).
Proof.
  intros Hwf s'. subst s'. rewrite update_buckets_index by done.
  split.
  - intros bucket images x. rewrite get_prune by by apply wf_restrict.
    rewrite get_restrict.
    destruct (PyDict.get bucket (aspect_ratio_bucket_indices s)) as [l|]; [|done].
    cbn [fmap option_fmap option_map]. case_decide; [done|].
    intros [= <-] Hx. by apply list_elem_of_filter in Hx as [? _].
  - intros bucket images Hget kept. subst kept.
    rewrite get_prune by by apply wf_restrict.
    by rewrite get_restrict, Hget.
Qed.
End Persistence.

(** * Discovery and bucketing *)

Section Compute.
Context {B : Type} `{!BaseDataBackend B, !Collaborators B}.
Implicit Types (s : BucketManager (B:=B)).

Lemma _discover_new_files_eq s :
  _discover_new_files s =
  (match listed_files s with
   | Ok files => Ok (filter (λ file, file ∉ instance_images_path s) files)
   | Raise e => Raise e
   end, s).
Proof.
  unfold _discover_new_files, listed_files, mbind, M_bind, backend_list_files, lift_res.
  destruct (be_list_files _ _ _) as [data|e]; [|done].
  by destruct (flatten_files data).
Qed.

Lemma discover_pair r s :
  (_discover_new_files s).1 = r → _discover_new_files s = (r, s).
Proof. rewrite _discover_new_files_eq. by intros <-. Qed.

Lemma compute_no_new_files drained s :
  (_discover_new_files s).1 = Ok [] →
  compute_aspect_ratio_bucket_indices drained s = (Ok (), s).
Proof.
  intros Hnew%discover_pair. unfold compute_aspect_ratio_bucket_indices.
  by rewrite (bind_ok _ _ _ _ _ Hnew).
Qed.

Lemma compute_raises drained s e :
  (_discover_new_files s).1 = Raise e →
  compute_aspect_ratio_bucket_indices drained s = (Raise e, s).
Proof.
  intros Hnew%discover_pair. unfold compute_aspect_ratio_bucket_indices.
  by rewrite (bind_raise _ _ _ _ _ Hnew).
Qed.

Lemma compute_new_files drained s new_files :
  (_discover_new_files s).1 = Ok new_files → new_files ≠ [] →
  compute_aspect_ratio_bucket_indices drained s =
  _save_cache
    (with_images (instance_images_path s ∪ list_to_set new_files)
       (with_index
          (foldl merge_update (aspect_ratio_bucket_indices s)
             (received_results drained
                (worker_results new_files
                   (union_of_values (aspect_ratio_bucket_indices s))
                   (data_backend s)))) s)).
Proof.
  intros Hnew%discover_pair Hne. unfold compute_aspect_ratio_bucket_indices.
  rewrite (bind_ok _ _ _ _ _ Hnew). rewrite bool_decide_eq_false_2 by done.
  done.
Qed.

(** C8: when discovery finds no new file,
    [compute_aspect_ratio_bucket_indices] returns at once: the manager,
    its index, its discovered set and its backend (so the cache document
    in it) are what they were. *)
Theorem compute_without_new_files_is_noop drained s :
  (_discover_new_files s).1 = Ok [] →
  compute_aspect_ratio_bucket_indices drained s = (Ok (), s).
Proof. apply compute_no_new_files. Qed.

(** *** Merging keeps the keys unique *)

Lemma wf_setdefault_extend key value d :
  PyDict.wf d → PyDict.wf (setdefault_extend key value d).
Proof. apply wf_set. Qed.

Lemma wf_merge_update d update : PyDict.wf d → PyDict.wf (merge_update d update).
Proof.
  unfold merge_update. revert d.
  induction update as [|[k v] update IH]; intros d Hwf; [done|].
  cbn [foldl]. by apply IH, wf_setdefault_extend.
Qed.

Lemma wf_merge_all d updates :
  PyDict.wf d → PyDict.wf (foldl merge_update d updates).
Proof.
  revert d. induction updates as [|u updates IH]; intros d Hwf; [done|].
  cbn [foldl]. by apply IH, wf_merge_update.
Qed.

Lemma wf_nil : PyDict.wf (V:=list string) [].
Proof. apply NoDup_nil_2. Qed.

Lemma _bucket_worker_nothing_existing files b :
  _bucket_worker files ∅ b
  = foldl (λ local file, process_for_bucket b file local) [] files.
Proof.
  unfold _bucket_worker. generalize ([] : index_t).
  induction files as [|f files IH]; intros acc; [done|].
  cbn [foldl]. rewrite decide_False by apply not_elem_of_empty. apply IH.
Qed.

(** C1, as amended: with new files and an entirely empty index, the
    union over the index is the empty set and nothing fails there. No new
    file is skipped as existing; the workers' partial indices are merged
    into the empty index and the new files join the discovered set, then
    the cache is saved; the call raises only when the write of the save
    does, and all new files are in the discovered set afterwards. *)
Theorem compute_on_empty_index_proceeds drained s new_files :
  (_discover_new_files s).1 = Ok new_files → new_files ≠ [] →
  aspect_ratio_bucket_indices s = [] →
  let merged :=
    foldl merge_update []
      (received_results drained (worker_results new_files ∅ (data_backend s))) in
  let discovered := instance_images_path s ∪ list_to_set new_files in
  union_of_values (aspect_ratio_bucket_indices s) = ∅
  ∧ (∀ shard, _bucket_worker shard ∅ (data_backend s)
              = foldl (λ local file, process_for_bucket (data_backend s) file local)
                      [] shard)
  ∧ compute_aspect_ratio_bucket_indices drained s
    = _save_cache (with_images discovered (with_index merged s))
  ∧ (compute_aspect_ratio_bucket_indices drained s).1
    = (be_write (data_backend s) (cache_file s)
         (json_dumps (cache_data (prune (batch_size s) merged) discovered))).1
  ∧ (∀ file, file ∈ new_files →
       file ∈ instance_images_path (compute_aspect_ratio_bucket_indices drained s).2).
Proof.
  intros Hnew Hne Hidx merged discovered.
  assert (Hcompute : compute_aspect_ratio_bucket_indices drained s
                     = _save_cache (with_images discovered (with_index merged s))).
  { rewrite (compute_new_files _ _ _ Hnew Hne). by rewrite Hidx. }
  assert (Hwf : PyDict.wf merged) by apply wf_merge_all, wf_nil.
  split_and!.
  - by rewrite Hidx.
  - intros shard. apply _bucket_worker_nothing_existing.
  - done.
  - rewrite Hcompute, _save_cache_spec by done. done.
  - intros file Hin. rewrite Hcompute, _save_cache_spec by done.
    cbn. subst discovered. apply elem_of_union_r. by apply elem_of_list_to_set.
Qed.
End Compute.

(** * Refreshing *)

Section Refresh.
Context {B : Type} `{!BaseDataBackend B, !Collaborators B}.
Implicit Types (s : BucketManager (B:=B)).

Lemma listed_files_pair s :
  (backend_list_files ≫= λ data, lift_res (flatten_files data)) s
  = (listed_files s, s).
Proof.
  unfold listed_files, mbind, M_bind, backend_list_files, lift_res.
  by destruct (be_list_files _ _ _).
Qed.

Lemma refresh_buckets_eq drained s :
  refresh_buckets drained s =
  match compute_aspect_ratio_bucket_indices drained s with
  | (Ok _, sm) =>
      match listed_files sm with
      | Ok files => update_buckets_with_existing_files (list_to_set files) sm
      | Raise e => (Raise e, sm)
      end
  | (Raise e, sm) => (Raise e, sm)
  end.
Proof.
  unfold refresh_buckets. unfold mbind at 1, M_bind at 1.
  destruct (compute_aspect_ratio_bucket_indices drained s) as [[[]|e] sm]; [|done].
  unfold mbind, M_bind, backend_list_files, lift_res, listed_files.
  destruct (be_list_files _ _ _) as [data|e]; [|done].
  by destruct (flatten_files data).
Qed.

Lemma compute_effect drained s :
  PyDict.wf (aspect_ratio_bucket_indices s) →
  let s' := (compute_aspect_ratio_bucket_indices drained s).2 in
  same_config s s'
  ∧ PyDict.wf (aspect_ratio_bucket_indices s')
  ∧ (∀ files,
       listed_files s = Ok files →
       (compute_aspect_ratio_bucket_indices drained s).1 = Ok () →
       ∀ file, file ∈ files → file ∈ instance_images_path s').
Proof.
  intros Hwf s'. subst s'.
  destruct (_discover_new_files s).1 as [new_files|e] eqn:Hnew.
  - destruct (decide (new_files = [])) as [->|Hne].
    + rewrite (compute_no_new_files _ _ Hnew). split_and!; [done..|].
      intros files Hfiles _ file Hin. cbn.
      rewrite _discover_new_files_eq, Hfiles in Hnew. cbn in Hnew.
      destruct (decide (file ∈ instance_images_path s)) as [|Hnin]; [done|].
      assert (file ∈ filter (λ f, f ∉ instance_images_path s) files) as Hf
        by by apply list_elem_of_filter.
      injection Hnew as Hnew. rewrite Hnew in Hf. by apply elem_of_nil in Hf.
    + rewrite (compute_new_files _ _ _ Hnew Hne).
      rewrite _save_cache_spec by by apply wf_merge_all.
      cbn. split_and!; [done| |].
      * by apply wf_prune, wf_merge_all.
      * intros files Hfiles _ file Hin.
        rewrite _discover_new_files_eq, Hfiles in Hnew. injection Hnew as <-.
        destruct (decide (file ∈ instance_images_path s)) as [|Hnin].
        -- by apply elem_of_union_l.
        -- apply elem_of_union_r, elem_of_list_to_set. by apply list_elem_of_filter.
  - rewrite (compute_raises _ _ _ Hnew). split_and!; [done..|].
    intros files _ [=].
Qed.

Lemma restrict_id existing idx :
  (∀ k v x, (k, v) ∈ idx → x ∈ v → x ∈ existing) → restrict existing idx = idx.
Proof.
  intros Hin. unfold restrict. rewrite <-(map_id idx) at 2.
  apply map_ext_in. intros [k v] Hkv%list_elem_of_In. cbn. f_equal.
  apply filter_id_in. intros x Hx. by eapply Hin.
Qed.

Lemma prune_restrict_stable batch existing idx :
  let idx' := prune batch (restrict existing idx) in
  prune batch (restrict existing idx') = idx'.
Proof.
  intros idx'. rewrite restrict_id.
  - subst idx'. unfold prune. rewrite list_filter_filter.
    apply list_filter_iff. tauto.
  - intros k v x [_ Hkv]%list_elem_of_filter Hx.
    apply list_elem_of_fmap in Hkv as ([k0 v0] & [= -> ->] & _).
    by apply list_elem_of_filter in Hx as [? _].
Qed.

(** C9: a second [refresh_buckets], run on what a first successful one
    left, with the backend listing the same files throughout, changes
    neither the bucket index nor the discovered set, and hands the
    backend the very document the first call persisted. *)
Theorem refresh_twice_is_idempotent drained1 drained2 s0 files :
  PyDict.wf (aspect_ratio_bucket_indices s0) →
  listed_files s0 = Ok files →
  listed_files (compute_aspect_ratio_bucket_indices drained1 s0).2 = Ok files →
  (refresh_buckets drained1 s0).1 = Ok () →
  listed_files (refresh_buckets drained1 s0).2 = Ok files →
  let s1 := (refresh_buckets drained1 s0).2 in
  let s2 := (refresh_buckets drained2 s1).2 in
  let document :=
    json_dumps (cache_data (aspect_ratio_bucket_indices s1) (instance_images_path s1)) in
  aspect_ratio_bucket_indices s2 = aspect_ratio_bucket_indices s1
  ∧ instance_images_path s2 = instance_images_path s1
  ∧ be_write (data_backend (compute_aspect_ratio_bucket_indices drained1 s0).2)
      (cache_file s0) document
    = (Ok (), data_backend s1)
  ∧ ((refresh_buckets drained2 s1).1, data_backend s2)
    = be_write (data_backend s1) (cache_file s0) document.
Proof.
  intros Hwf Hfiles0 Hfilesm Hok Hfiles1.
  destruct (compute_effect drained1 s0 Hwf) as ((Hbs & Hcf & Hroot) & Hwfm & Himages).
  specialize (Himages files Hfiles0).
  rewrite refresh_buckets_eq in Hok, Hfiles1 |- *.
  destruct (compute_aspect_ratio_bucket_indices drained1 s0) as [[[]|e] sm] eqn:Hcompute;
    [|done].
  cbn [fst snd] in *. specialize (Himages eq_refl).
  rewrite Hfilesm in Hok, Hfiles1 |- *.
  rewrite update_buckets_with_existing_files_spec in Hok, Hfiles1 |- * by done.
  rewrite _save_cache_spec in Hok, Hfiles1 |- * by by apply wf_restrict.
  cbn [fst snd batch_size with_index aspect_ratio_bucket_indices
       instance_images_path data_backend cache_file with_backend] in *.
  rewrite with_index_twice in Hfiles1 |- *.
  set (existing := list_to_set files : gset string) in *.
  set (idx1 := prune (batch_size sm) (restrict existing (aspect_ratio_bucket_indices sm))) in *.
  set (w1 := be_write (data_backend sm) (cache_file sm)
               (json_dumps (cache_data idx1 (instance_images_path sm)))) in *.
  set (s1 := with_backend w1.2 (with_index idx1 sm)) in *.
  assert (Hwf1 : PyDict.wf idx1) by by apply wf_prune, wf_restrict.
(* the second call discovers nothing *)
assert (Hnone : (_discover_new_files s1).1 = Ok []).
{ rewrite _discover_new_files_eq, Hfiles1. cbn [fst]. f_equal.
  apply filter_nil_in. intros file Hin Hnin. apply Hnin. subst s1. cbn.
  by apply Himages. }
rewrite refresh_buckets_eq, (compute_no_new_files _ _ Hnone), Hfiles1.
rewrite update_buckets_with_existing_files_spec by done.
rewrite _save_cache_spec by by apply wf_restrict.
cbn [fst snd batch_size with_index aspect_ratio_bucket_indices
     instance_images_path data_backend cache_file with_backend s1].
fold existing. subst idx1. rewrite prune_restrict_stable.
split; [done|]. split; [done|]. split.
- rewrite <-Hcf. fold w1.
  destruct w1 as [r b]. cbn in Hok |- *. by rewrite Hok.
- rewrite <-Hcf. symmetry. apply surjective_pairing.
Qed.
End Refresh.

(** * Every reference once *)

Section Refs.
Implicit Types (d idx : index_t) (k : string) (l : list string).

Lemma all_refs_cons k l d : all_refs ((k, l) :: d) = l ++ all_refs d.
Proof. done. Qed.

(** The list of a bucket sits in [all_refs] between the lists of the
    buckets before and after it, and assigning the bucket replaces it
    there. *)
Lemma all_refs_set k l d :
  PyDict.get k d = Some l →
  ∃ pre post,
    all_refs d = pre ++ l ++ post
    ∧ ∀ l', all_refs (PyDict.set k l' d) = pre ++ l' ++ post.
Proof.
  induction d as [|[k0 l0] d IH]; [done|]. cbn [PyDict.get PyDict.set].
  destruct (decide (k0 = k)) as [->|Hne].
  - intros [= ->]. by exists [], (all_refs d).
  - intros (pre & post & Hd & Hset)%IH. exists (l0 ++ pre), post.
    rewrite !all_refs_cons, Hd. split; [by rewrite app_assoc|].
    intros l'. by rewrite all_refs_cons, Hset, app_assoc.
Qed.

Lemma all_refs_set_new k l d :
  PyDict.get k d = None → all_refs (PyDict.set k l d) = all_refs d ++ l.
Proof.
  induction d as [|[k0 l0] d IH]; cbn [PyDict.get PyDict.set].
  - intros _. unfold all_refs. cbn. by rewrite app_nil_r.
  - destruct (decide (k0 = k)) as [->|Hne]; [done|].
    intros Hget. by rewrite !all_refs_cons, IH, app_assoc.
Qed.

Lemma all_refs_setdefault_extend k l d :
  all_refs (setdefault_extend k l d) ≡ₚ all_refs d ++ l.
Proof.
  unfold setdefault_extend.
  destruct (PyDict.get k d) as [l0|] eqn:Hget; simpl.
  - destruct (all_refs_set _ _ _ Hget) as (pre & post & -> & ->).
    rewrite <-!app_assoc. do 2 apply Permutation_app_head.
    apply Permutation_app_comm.
  - by rewrite all_refs_set_new.
Qed.

Lemma all_refs_merge_update d update :
  all_refs (merge_update d update) ≡ₚ all_refs d ++ all_refs update.
Proof.
  unfold merge_update. revert d.
  induction update as [|[k l] update IH]; intros d; cbn [foldl].
  - unfold all_refs at 3. cbn. by rewrite app_nil_r.
  - rewrite IH, all_refs_setdefault_extend, all_refs_cons. by rewrite app_assoc.
Qed.

Lemma all_refs_merge_all d updates :
  all_refs (foldl merge_update d updates)
  ≡ₚ all_refs d ++ concat (all_refs <$> updates).
Proof.
  revert d. induction updates as [|u updates IH]; intros d; cbn [foldl].
  - cbn. by rewrite app_nil_r.
  - rewrite IH, all_refs_merge_update, fmap_cons. cbn. by rewrite app_assoc.
Qed.

Lemma elem_of_union_of_values x idx :
  x ∈ union_of_values idx ↔ x ∈ all_refs idx.
Proof.
  unfold union_of_values, all_refs.
  assert (Hgen : ∀ (ls : list (list string)) (acc : gset string),
            x ∈ foldl (λ acc images, acc ∪ list_to_set images) acc ls
            ↔ x ∈ acc ∨ x ∈ concat ls).
  { induction ls as [|l ls IH]; intros acc; cbn [foldl concat].
    - rewrite elem_of_nil. tauto.
    - rewrite IH, elem_of_union, elem_of_list_to_set, elem_of_app. tauto. }
  rewrite Hgen, elem_of_empty. tauto.
Qed.

Lemma all_refs_sublist d d' : d' `sublist_of` d → all_refs d' `sublist_of` all_refs d.
Proof.
  induction 1 as [|[k l] d1 d2 _ IH|[k l] d1 d2 _ IH]; [done|..];
    rewrite ?all_refs_cons.
  - by apply sublist_app.
  - by apply sublist_inserts_l.
Qed.

Lemma all_refs_restrict existing idx :
  all_refs (restrict existing idx) = filter (λ img, img ∈ existing) (all_refs idx).
Proof.
  unfold restrict. induction idx as [|[k l] idx IH]; [done|].
  cbn [map fst snd]. by rewrite !all_refs_cons, filter_app, IH.
Qed.

Lemma each_ref_once_prune batch idx :
  each_ref_once idx → each_ref_once (prune batch idx).
Proof.
  intros [Hwf Hnd]. split; [by apply wf_filter|].
  eapply sublist_NoDup; [exact Hnd|]. apply all_refs_sublist, sublist_filter.
Qed.

Lemma each_ref_once_restrict existing idx :
  each_ref_once idx → each_ref_once (restrict existing idx).
Proof.
  intros [Hwf Hnd]. split.
  - unfold PyDict.wf, restrict. by rewrite keys_map.
  - rewrite all_refs_restrict. by apply NoDup_filter.
Qed.

Lemma each_ref_once_nil : each_ref_once [].
Proof. split; apply NoDup_nil_2. Qed.

Lemma elem_of_all_refs k l x idx :
  PyDict.get k idx = Some l → x ∈ l → x ∈ all_refs idx.
Proof.
  intros (pre & post & -> & _)%all_refs_set Hx.
  rewrite !elem_of_app. tauto.
Qed.

Lemma each_ref_once_no_cross_bucket idx :
  each_ref_once idx → no_cross_bucket_duplication idx.
Proof.
  intros [_ Hnd] b1 b2 l1 l2 x Hb1 Hb2 Hx1 Hx2.
  destruct (decide (b1 = b2)) as [|Hne]; [done|]. exfalso.
  destruct (all_refs_set _ _ _ Hb1) as (pre & post & Hrefs & Hset).
  assert (Hb2' : PyDict.get b2 (PyDict.set b1 [] idx) = Some l2)
    by by rewrite get_set_ne.
  pose proof (elem_of_all_refs _ _ x _ Hb2' Hx2) as Hin.
  rewrite Hset in Hin. rewrite Hrefs in Hnd.
  apply NoDup_app in Hnd as (Hpre & Hdisj & Hrest).
  apply NoDup_app in Hrest as (_ & Hdisj' & _).
  cbn in Hin. apply elem_of_app in Hin as [Hin|Hin].
  - apply (Hdisj _ Hin). rewrite elem_of_app. tauto.
  - by apply (Hdisj' _ Hx1).
Qed.

(** *** Shards and the results taken from the queue *)

Lemma concat_split_at_sizes {A} (sizes : list nat) (l : list A) :
  concat (split_at_sizes sizes l) = take (sum_list sizes) l.
Proof.
  revert l. induction sizes as [|n sizes IH]; intros l;
    cbn [split_at_sizes concat sum_list sum_list_with].
  - by rewrite take_0.
  - by rewrite IH, take_take_drop.
Qed.

Lemma concat_array_split_sublist {A} (l : list A) sections :
  concat (array_split l sections) `sublist_of` l.
Proof. unfold array_split. rewrite concat_split_at_sizes. apply sublist_take. Qed.

(** Splitting loses no file and adds none. *)
Lemma concat_array_split {A} (l : list A) sections :
  0 < sections → concat (array_split l sections) = l.
Proof.
  intros Hpos. unfold array_split. rewrite concat_split_at_sizes.
  apply take_ge. rewrite sum_list_with_app, !sum_list_replicate.
  pose proof (Nat.div_mod_eq (length l) sections) as Hdm.
  pose proof (Nat.mod_upper_bound (length l) sections ltac:(lia)) as Hub.
  nia.
Qed.

Example array_split_eleven :
  array_split [1; 2; 3; 4; 5; 6; 7; 8; 9; 10; 11] num_cpus
  = [[1; 2]; [3; 4]; [5; 6]; [7]; [8]; [9]; [10]; [11]].
Proof. reflexivity. Qed.

Lemma elem_of_concat {A} (ls : list (list A)) x :
  x ∈ concat ls ↔ ∃ a, a ∈ ls ∧ x ∈ a.
Proof.
  induction ls as [|a0 ls IH]; cbn [concat].
  - rewrite elem_of_nil. split; [done|]. by intros (a & ?%elem_of_nil & _).
  - rewrite elem_of_app, IH. split.
    + intros [Hx|(a & Ha & Hx)].
      * exists a0. split; [apply list_elem_of_here | done].
      * exists a. split; [by apply list_elem_of_further | done].
    + intros (a & [->|Ha]%elem_of_cons & Hx); [by left|]. right. by exists a.
Qed.

Lemma NoDup_concat_disjoint {A} (ls : list (list A)) i j a a' x :
  NoDup (concat ls) → ls !! i = Some a → ls !! j = Some a' → i ≠ j →
  x ∈ a → x ∈ a' → False.
Proof.
  revert i j. induction ls as [|l0 ls IH]; intros i j Hnd Hi Hj Hne Hx Hx'; [done|].
  cbn [concat] in Hnd. apply NoDup_app in Hnd as (_ & Hdisj & Hnd).
  assert (Hin : ∀ n b, ls !! n = Some b → x ∈ b → x ∈ concat ls).
  { intros n b Hn Hb. apply elem_of_concat. exists b.
    split; [|done]. by eapply list_elem_of_lookup_2. }
  destruct i as [|i], j as [|j]; cbn in Hi, Hj; simplify_eq.
  - by eapply Hdisj, Hin.
  - by eapply Hdisj, Hin.
  - eapply (IH i j); eauto.
Qed.

Lemma NoDup_concat_selected {A} (ls : list (list A)) (sel : list nat) :
  NoDup sel → NoDup (concat ls) → NoDup (concat (omap (λ i, ls !! i) sel)).
Proof.
  intros Hsel Hnd. induction Hsel as [|i sel Hi Hsel IH]; [by apply NoDup_nil_2|].
  cbn [omap list_omap]. destruct (ls !! i) as [a|] eqn:Ha; [|done].
  cbn [concat]. apply NoDup_app. split_and!; [|  |done].
  - eapply sublist_NoDup; [exact Hnd|].
    pose proof (list_elem_of_lookup_2 _ _ _ Ha) as Hmem.
    apply list_elem_of_split in Hmem as (l1 & l2 & ->).
    rewrite concat_app. cbn [concat]. apply sublist_inserts_l, sublist_inserts_r. done.
  - intros x Hx (a' & Ha' & Hx')%elem_of_concat.
    apply list_elem_of_omap in Ha' as (j & Hj & Hlook).
    eapply (NoDup_concat_disjoint ls i j); eauto. by intros ->.
Qed.
End Refs.

Section Invariant.
Context {B : Type} `{!BaseDataBackend B, !Collaborators B}.
Implicit Types (s : BucketManager (B:=B)).

(** A worker buckets the files of its shard that are not existing and
    that the assigner accepts, each once. *)
Lemma all_refs_bucket_worker files existing b :
  all_refs (_bucket_worker files existing b)
  ≡ₚ filter (λ file, (file ∉ existing) ∧ is_Some (assign_bucket b file)) files.
Proof.
  unfold _bucket_worker.
  rewrite <-(app_nil_l (filter _ files)). change [] with (all_refs []) at 2.
  generalize ([] : index_t).
  induction files as [|f files IH]; intros acc; cbn [foldl].
  - by rewrite app_nil_r.
  - rewrite IH, filter_cons. unfold process_for_bucket.
    destruct (decide (f ∈ existing)) as [Hin|Hnin].
    + rewrite decide_False by tauto. done.
    + destruct (assign_bucket b f) as [key|] eqn:Hkey.
      * rewrite decide_True by (split; [done | by eexists]).
        rewrite all_refs_setdefault_extend. by rewrite <-app_assoc.
      * rewrite decide_False; [done|]. intros [_ [? ?]]. done.
Qed.

Lemma omap_lookup_fmap {A C} (f : A → C) (ls : list A) (sel : list nat) :
  omap (λ i, (f <$> ls) !! i) sel = f <$> omap (λ i, ls !! i) sel.
Proof.
  induction sel as [|i sel IH]; [done|]. cbn [omap list_omap].
  rewrite list_lookup_fmap. fold (omap (λ i, (f <$> ls) !! i) sel).
  rewrite IH. by destruct (ls !! i).
Qed.

Lemma received_results_fmap drained new_files existing b :
  received_results drained (worker_results new_files existing b)
  = (λ shard, _bucket_worker shard existing b)
    <$> omap (λ i, array_split new_files num_cpus !! i) (remove_dups drained).
Proof. apply omap_lookup_fmap. Qed.

Lemma all_refs_workers (shards : list (list string)) existing b :
  concat (all_refs <$> ((λ shard, _bucket_worker shard existing b) <$> shards))
  ≡ₚ filter (λ file, (file ∉ existing) ∧ is_Some (assign_bucket b file)) (concat shards).
Proof.
  induction shards as [|shard shards IH]; [done|].
  rewrite !fmap_cons. cbn [concat].
  by rewrite filter_app, IH, all_refs_bucket_worker.
Qed.

Lemma each_ref_once_merge drained new_files idx b :
  each_ref_once idx → NoDup new_files →
  each_ref_once
    (foldl merge_update idx
       (received_results drained
          (worker_results new_files (union_of_values idx) b))).
Proof.
  intros [Hwf Hnd] Hnew. split; [by apply wf_merge_all|].
  rewrite all_refs_merge_all, received_results_fmap, all_refs_workers.
  apply NoDup_app. split_and!; [done| |].
  - intros x Hx [[Hnin _] _]%list_elem_of_filter.
    by apply Hnin, elem_of_union_of_values.
  - apply NoDup_filter, NoDup_concat_selected; [apply NoDup_remove_dups|].
    eapply sublist_NoDup; [exact Hnew|]. apply concat_array_split_sublist.
Qed.

Lemma each_ref_once_save s :
  each_ref_once (aspect_ratio_bucket_indices s) →
  each_ref_once (aspect_ratio_bucket_indices (_save_cache s).2).
Proof.
  intros Hinv. rewrite _save_cache_spec by apply Hinv.
  by apply each_ref_once_prune.
Qed.

Lemma each_ref_once_update existing s :
  each_ref_once (aspect_ratio_bucket_indices s) →
  each_ref_once
    (aspect_ratio_bucket_indices (update_buckets_with_existing_files existing s).2).
Proof.
  intros Hinv. rewrite update_buckets_with_existing_files_spec by apply Hinv.
  by apply each_ref_once_save, each_ref_once_restrict.
Qed.

Lemma each_ref_once_compute drained s :
  each_ref_once (aspect_ratio_bucket_indices s) →
  as_intended (Compute drained) s →
  each_ref_once
    (aspect_ratio_bucket_indices (compute_aspect_ratio_bucket_indices drained s).2).
Proof.
  intros Hinv Hnodup. cbn in Hnodup.
  destruct (_discover_new_files s).1 as [new_files|e] eqn:Hnew.
  - destruct (decide (new_files = [])) as [->|Hne].
    + by rewrite (compute_no_new_files _ _ Hnew).
    + rewrite (compute_new_files _ _ _ Hnew Hne).
      apply each_ref_once_save. cbn. apply each_ref_once_merge; [done|].
      by apply Hnodup.
  - by rewrite (compute_raises _ _ _ Hnew).
Qed.

Lemma each_ref_once_refresh drained s :
  each_ref_once (aspect_ratio_bucket_indices s) →
  as_intended (Refresh drained) s →
  each_ref_once (aspect_ratio_bucket_indices (refresh_buckets drained s).2).
Proof.
  intros Hinv Hnodup. rewrite refresh_buckets_eq.
  pose proof (each_ref_once_compute drained s Hinv Hnodup) as Hm.
  destruct (compute_aspect_ratio_bucket_indices drained s) as [[[]|e] sm]; [|done].
  cbn [snd] in Hm. destruct (listed_files sm) as [files|e]; [|done].
  by apply each_ref_once_update.
Qed.

Lemma each_ref_once_set bucket images images' idx :
  PyDict.get bucket idx = Some images →
  images' `sublist_of` images →
  each_ref_once idx → each_ref_once (PyDict.set bucket images' idx).
Proof.
  intros Hget Hsub [Hwf Hnd]. split; [by apply wf_set|].
  destruct (all_refs_set _ _ _ Hget) as (pre & post & Hrefs & ->).
  rewrite Hrefs in Hnd. eapply sublist_NoDup; [exact Hnd|].
  by apply sublist_app, sublist_app.
Qed.

Lemma each_ref_once_remove_image image_path bucket s :
  each_ref_once (aspect_ratio_bucket_indices s) →
  each_ref_once (aspect_ratio_bucket_indices (remove_image image_path bucket s).2).
Proof.
  intros Hinv.
  destruct (PyDict.get bucket (aspect_ratio_bucket_indices s)) as [images|] eqn:Hget.
  - rewrite (remove_image_some _ _ _ _ Hget). cbn [snd].
    destruct (list_in image_path images); [|done].
    cbn. eapply each_ref_once_set; [done| |done]. apply list_remove_sublist.
  - by rewrite (remove_image_none _ _ _ Hget).
Qed.

Lemma each_ref_once_handle_small_image image_path bucket delete s :
  each_ref_once (aspect_ratio_bucket_indices s) →
  each_ref_once
    (aspect_ratio_bucket_indices (handle_small_image image_path bucket delete s).2).
Proof.
  intros Hinv. unfold handle_small_image. unfold mbind at 1, M_bind at 1.
  assert (∃ s1,
    (if delete then try_except (backend_remove image_path) (λ _, mret ()) else mret ()) s
    = (Ok (), s1)
    ∧ aspect_ratio_bucket_indices s1 = aspect_ratio_bucket_indices s)
    as (s1 & -> & Hidx).
  { destruct delete; [|by eexists]. unfold try_except, backend_remove.
    destruct getattr_remove as [remove|]; [|by eexists].
    destruct (remove (data_backend s) image_path) as [[[]|e] b]; by eexists. }
  apply each_ref_once_remove_image. by rewrite Hidx.
Qed.

Lemma each_ref_once_handle_incorrect_bucket image_path bucket actual_bucket s :
  each_ref_once (aspect_ratio_bucket_indices s) →
  as_intended (HandleIncorrectBucket image_path bucket actual_bucket) s →
  each_ref_once
    (aspect_ratio_bucket_indices
       (handle_incorrect_bucket image_path bucket actual_bucket s).2).
Proof.
  intros [Hwf Hnd] (images & Hget & Hin).
  rewrite (handle_incorrect_bucket_some _ _ _ _ _ Hget). cbn.
  split; [by apply wf_setdefault_extend, wf_set|].
  rewrite all_refs_setdefault_extend.
  destruct (all_refs_set _ _ _ Hget) as (pre & post & Hrefs & ->).
  rewrite Hrefs in Hnd.
  assert (Hperm : pre ++ images ++ post
                  ≡ₚ (pre ++ list_remove image_path images ++ post) ++ [image_path]).
  { rewrite (list_remove_perm _ _ Hin) at 1.
    rewrite <-Permutation_cons_append. cbn [app].
    symmetry. apply Permutation_middle. }
  by rewrite <-Hperm.
Qed.
End Invariant.

Section Reachable.
Context {B : Type} `{!BaseDataBackend B, !Collaborators B}.
Implicit Types (s : BucketManager (B:=B)).

Lemma each_ref_once_step s s' :
  each_ref_once (aspect_ratio_bucket_indices s) → step s s' →
  each_ref_once (aspect_ratio_bucket_indices s').
Proof.
  intros Hinv Hstep. destruct Hstep as [c s Hc|b s]; [|exact Hinv].
  destruct c; cbn [run].
  - by apply each_ref_once_compute.
  - by apply each_ref_once_refresh.
  - by apply each_ref_once_update.
  - by apply each_ref_once_save.
  - by apply each_ref_once_remove_image.
  - by apply each_ref_once_handle_incorrect_bucket.
  - by apply each_ref_once_handle_small_image.
Qed.

(** C10, as amended: start from an index in which no image reference
    occurs twice (the empty index is one). Through any sequence of
    compute, refresh, update-with-existing, save, [remove_image],
    [handle_small_image] and [handle_incorrect_bucket] calls, with the
    files of the backend changing freely in between, no image reference
    is ever in the lists of two buckets, as long as discovery names no
    new file twice and [handle_incorrect_bucket] is called for an image
    that is in the list of the bucket it is moved out of. *)
Theorem no_cross_bucket_duplication_when_used_as_intended s0 s :
  each_ref_once (aspect_ratio_bucket_indices s0) →
  rtc step s0 s →
  no_cross_bucket_duplication (aspect_ratio_bucket_indices s).
Proof.
  intros Hinv Hsteps. apply each_ref_once_no_cross_bucket.
  induction Hsteps as [|s1 s2 s3 Hstep _ IH]; [done|].
  by eapply IH, each_ref_once_step.
Qed.
End Reachable.

(** * Small images and the backend *)

Section Small_image.
Context {B : Type} `{!BaseDataBackend B, !Collaborators B}.
Implicit Types (s : BucketManager (B:=B)).

Lemma remove_image_backend image_path bucket s :
  data_backend (remove_image image_path bucket s).2 = data_backend s.
Proof.
  destruct (PyDict.get bucket (aspect_ratio_bucket_indices s)) as [images|] eqn:Hget.
  - rewrite (remove_image_some _ _ _ _ Hget). cbn [snd].
    by destruct (list_in image_path images).
  - by rewrite (remove_image_none _ _ _ Hget).
Qed.

(** Without the flag the backend is not touched. *)
Lemma handle_small_image_keeps_file image_path bucket s :
  handle_small_image image_path bucket false s = remove_image image_path bucket s.
Proof. done. Qed.

(** With the flag, a backend that has a [remove] gets the call, and what
    it raises is swallowed. *)
Lemma handle_small_image_calls_remove remove image_path bucket s :
  getattr_remove = Some remove →
  handle_small_image image_path bucket true s
  = remove_image image_path bucket
      (with_backend (remove (data_backend s) image_path).2 s).
Proof.
  intros Hattr. unfold handle_small_image, try_except, backend_remove.
  rewrite Hattr. unfold mbind, M_bind.
  by destruct (remove (data_backend s) image_path) as [[[]|e] b].
Qed.

(** With the flag, on a backend whose class has no [remove], the
    attribute error is swallowed and nothing reaches the backend. *)
Lemma handle_small_image_without_remove image_path bucket s :
  getattr_remove = None →
  handle_small_image image_path bucket true s = remove_image image_path bucket s.
Proof.
  intros Hattr. unfold handle_small_image, try_except, backend_remove.
  by rewrite Hattr.
Qed.
End Small_image.

Section Small_image_on_S3.
Context {C : Type} `{!S3.Boto3 C} `{!Collaborators (S3.S3DataBackend (C:=C))}.

Lemma s3_has_no_remove : "remove" ∉ S3.class_attributes.
Proof. apply (bool_decide_unpack _). by vm_compute. Qed.

(** C2, on the S3 backend: [handle_small_image] with
    [delete_unwanted_images] set does what it does without the flag. It
    asks the backend for [remove], which [S3DataBackend] does not have,
    the attribute error is swallowed, and the backend is left as it was:
    [delete] is never called and the file stays. *)
Theorem handle_small_image_never_deletes_on_s3
    image_path bucket (s : BucketManager (B:=S3.S3DataBackend (C:=C))) :
  handle_small_image image_path bucket true s
  = handle_small_image image_path bucket false s
  ∧ data_backend (handle_small_image image_path bucket true s).2 = data_backend s.
Proof.
  rewrite handle_small_image_without_remove by done.
  split; [done|]. apply remove_image_backend.
Qed.
End Small_image_on_S3.

(** * Loading the cache *)

Section Load.
Context {B : Type} `{!BaseDataBackend B, !Collaborators B}.

Lemma _load_cache_absent (b : B) cache_file self :
  be_exists b cache_file = false →
  _load_cache b cache_file self = (Ok (), self, []).
Proof. unfold _load_cache. by intros ->. Qed.

Lemma _load_cache_unreadable (b : B) cache_file self e :
  be_exists b cache_file = true →
  be_read b cache_file = Raise e →
  _load_cache b cache_file self
  = (Ok (), empty_attrs, [LogWarningExc load_warning e]).
Proof. unfold _load_cache. by intros -> ->. Qed.

Lemma _load_cache_undecodable (b : B) cache_file self raw e :
  be_exists b cache_file = true →
  be_read b cache_file = Ok raw →
  json_loads raw = Raise e →
  _load_cache b cache_file self
  = (Ok (), empty_attrs, [LogWarningExc load_warning e]).
Proof. unfold _load_cache. by intros -> -> ->. Qed.

(** C7, where it fails: a cache file that decodes, but not to an object,
    makes [_load_cache], and so the construction of the manager, raise:
    the [get] on the decoded value is outside the [try]. *)
Theorem init_raises_on_non_object_cache (b : B) cache_file raw document :
  be_exists b cache_file = true →
  be_read b cache_file = Ok raw →
  json_loads raw = Ok document →
  (∀ d, document ≠ JDict d) →
  (__init__ b cache_file).1.1 = Raise (AttributeError "get").
Proof.
  unfold __init__, _load_cache. intros -> -> -> Hshape.
  destruct document; try done. by destruct (Hshape d).
Qed.

(** C7, where it holds: no cache file, an unreadable one or an
    undecodable one all leave the manager with an empty index and an
    empty discovered set, the last two after a warning. *)
Lemma init_tolerates_missing_or_corrupt_cache (b : B) cache_file :
  (be_exists b cache_file = false →
     __init__ b cache_file = (Ok (), empty_attrs, []))
  ∧ (∀ e, be_exists b cache_file = true → be_read b cache_file = Raise e →
       __init__ b cache_file = (Ok (), empty_attrs, [LogWarningExc load_warning e]))
  ∧ (∀ raw e, be_exists b cache_file = true → be_read b cache_file = Ok raw →
       json_loads raw = Raise e →
       __init__ b cache_file = (Ok (), empty_attrs, [LogWarningExc load_warning e])).
Proof.
  unfold __init__. split_and!.
  - apply _load_cache_absent.
  - intros e. apply _load_cache_unreadable.
  - intros raw e. apply _load_cache_undecodable.
Qed.

(** A manager built where there is no cache file starts from the empty
    index and the empty discovered set. *)
Lemma fresh_manager_is_empty (b : B) batch root cache_file :
  be_exists b cache_file = false →
  as_manager b batch root cache_file (__init__ b cache_file).1.2
  = Some {| data_backend := b;
            batch_size := batch;
            instance_data_root := root;
            cache_file := cache_file;
            aspect_ratio_bucket_indices := [];
            instance_images_path := ∅ |}.
Proof. intros Habsent. unfold __init__. by rewrite _load_cache_absent. Qed.
End Load.

(** * The statements on concrete managers *)

Ltac by_computation := vm_compute; reflexivity.

Lemma wf_by_decision (idx : index_t) :
  bool_decide (NoDup (PyDict.keys idx)) = true → PyDict.wf idx.
Proof. apply bool_decide_eq_true_1. Qed.

(** C1 as the spec states it does not hold: on the empty index of a
    first run, with three new files, the call does not raise; it buckets
    the files. *)
Lemma compute_on_empty_index_does_not_fail :
  let s := manager three_images 2 [] [] in
  (_discover_new_files s).1 = Ok ["a.png"; "b.png"; "c.png"]
  ∧ aspect_ratio_bucket_indices s = []
  ∧ (compute_aspect_ratio_bucket_indices [0; 1; 2] s).1 = Ok ()
  ∧ aspect_ratio_bucket_indices (compute_aspect_ratio_bucket_indices [0; 1; 2] s).2
    = [("1:1", ["a.png"; "b.png"])].
Proof. by_computation || (repeat split; by_computation). Qed.

Lemma compute_on_empty_index_proceeds_witness :
  let s := manager three_images 2 [] [] in
  (_discover_new_files s).1 = Ok ["a.png"; "b.png"; "c.png"]
  ∧ ["a.png"; "b.png"; "c.png"] ≠ []
  ∧ aspect_ratio_bucket_indices s = []
  ∧ union_of_values (aspect_ratio_bucket_indices s) = ∅.
Proof.
  intros s.
  assert (H1 : (_discover_new_files s).1 = Ok ["a.png"; "b.png"; "c.png"]) by by_computation.
  assert (H2 : ["a.png"; "b.png"; "c.png"] ≠ ([] : list string)) by discriminate.
  assert (H3 : aspect_ratio_bucket_indices s = []) by reflexivity.
  split; [exact H1|]. split; [exact H2|]. split; [exact H3|].
  exact (proj1 (compute_on_empty_index_proceeds [0; 1; 2] s _ H1 H2 H3)).
Defined.

(** C2, the failing input: an S3 bucket holding [small.png], which is in
    bucket "1:1" of the index. With [delete_unwanted_images] set the image
    leaves the bucket list, but the object is still in S3, where a call of
    [delete] would have removed it. *)
Example small_image_stays_on_s3 :
  let backend := s3_bucket [("small.png", "1:1"); ("big.png", "1:1")] in
  let s := manager backend 1 [("1:1", ["small.png"; "big.png"])] ["small.png"; "big.png"] in
  let s' := (handle_small_image "small.png" "1:1" true s).2 in
  (handle_small_image "small.png" "1:1" true s).1 = Ok ()
  ∧ aspect_ratio_bucket_indices s' = [("1:1", ["big.png"])]
  ∧ be_exists (data_backend s') "small.png" = true
  ∧ be_exists (be_delete backend "small.png").2 "small.png" = false.
Proof. repeat split; by_computation. Qed.

(** C3 as the spec states it does not hold: on a bucket key that the
    index does not have, [remove_image] raises. *)
Lemma remove_image_raises_on_absent_bucket :
  let s := manager three_images 1 [("1:1", ["a.png"; "b.png"])] ["a.png"; "b.png"] in
  PyDict.get "16:9" (aspect_ratio_bucket_indices s) = None
  ∧ (remove_image "c.png" "16:9" s).1 = Raise (KeyError "16:9").
Proof. split; by_computation. Qed.

Lemma remove_image_on_present_bucket_witness :
  let s := manager three_images 1 [("1:1", ["a.png"; "b.png"])] ["a.png"; "b.png"] in
  PyDict.get "1:1" (aspect_ratio_bucket_indices s) = Some ["a.png"; "b.png"]
  ∧ ∃ idx', remove_image "a.png" "1:1" s = (Ok (), with_index idx' s)
            ∧ PyDict.get "1:1" idx' = Some ["b.png"].
Proof.
  intros s.
  assert (H1 : PyDict.get "1:1" (aspect_ratio_bucket_indices s) = Some ["a.png"; "b.png"])
    by reflexivity.
  split; [exact H1|].
  destruct (remove_image_on_present_bucket "a.png" "1:1" _ s H1)
    as (idx' & Hrun & Hget & _).
  exists idx'. split; [exact Hrun | exact Hget].
Defined.

Lemma save_cache_enforces_min_bucket_size_witness :
  let s := manager three_images 2
             [("1:1", ["a.png"; "b.png"]); ("16:9", ["c.png"])]
             ["a.png"; "b.png"; "c.png"] in
  PyDict.wf (aspect_ratio_bucket_indices s)
  ∧ instance_images_path (_save_cache s).2 = instance_images_path s.
Proof.
  intros s.
  assert (H1 : PyDict.wf (aspect_ratio_bucket_indices s))
    by (apply wf_by_decision; by_computation).
  split; [exact H1|].
  exact (proj1 (proj2 (save_cache_enforces_min_bucket_size s H1))).
Defined.

(** The scenario of the spec, saved: bucket "1:1" is kept with its two
    images, bucket "16:9" with one image is gone, also from the document. *)
Example save_cache_scenario :
  let s := manager three_images 2
             [("1:1", ["a.png"; "b.png"]); ("16:9", ["c.png"])]
             ["a.png"; "b.png"; "c.png"] in
  aspect_ratio_bucket_indices (_save_cache s).2 = [("1:1", ["a.png"; "b.png"])]
  ∧ be_read (data_backend (_save_cache s).2) (cache_file s)
    = Ok (json_dumps
            {| doc_aspect_ratio_bucket_indices := [("1:1", ["a.png"; "b.png"])];
               doc_instance_images_path := set_iter (instance_images_path s) |}).
Proof. split; by_computation. Qed.

Lemma handle_incorrect_bucket_moves_image_witness :
  let s := manager three_images 1 [("1:1", ["x"; "y"]); ("16:9", ["z"])] [] in
  PyDict.get "1:1" (aspect_ratio_bucket_indices s) = Some ["x"; "y"]
  ∧ ∃ idx', handle_incorrect_bucket "x" "1:1" "16:9" s = (Ok (), with_index idx' s).
Proof.
  intros s.
  assert (H1 : PyDict.get "1:1" (aspect_ratio_bucket_indices s) = Some ["x"; "y"])
    by reflexivity.
  split; [exact H1|].
  destruct (proj1 handle_incorrect_bucket_moves_image "x" "1:1" "16:9" _ s H1)
    as (idx' & Hrun & _).
  exists idx'. exact Hrun.
Defined.

(** C6 as the spec states it does not hold: [a.png] exists and is in
    bucket "1:1", but the bucket has fewer than [batch_size] images, so
    the save inside the update drops it, and the image with it. *)
Lemma update_drops_existing_image_of_small_bucket :
  let s := manager three_images 2 [("1:1", ["a.png"])] ["a.png"] in
  let existing_files : gset string := {["a.png"]} in
  let s' := (update_buckets_with_existing_files existing_files s).2 in
  PyDict.get "1:1" (aspect_ratio_bucket_indices s) = Some ["a.png"]
  ∧ "a.png" ∈ existing_files
  ∧ (update_buckets_with_existing_files existing_files s).1 = Ok ()
  ∧ PyDict.get "1:1" (aspect_ratio_bucket_indices s') = None
  ∧ all_refs (aspect_ratio_bucket_indices s') = [].
Proof.
  cbv zeta. split_and!; [by_computation|by apply elem_of_singleton|by_computation..].
Qed.

Lemma update_removes_stale_keeps_full_buckets_witness :
  let s := manager three_images 1
             [("1:1", ["a.png"; "gone.png"]); ("16:9", ["c.png"])] [] in
  let existing_files : gset string := list_to_set ["a.png"; "c.png"] in
  PyDict.wf (aspect_ratio_bucket_indices s)
  ∧ PyDict.get "1:1"
      (aspect_ratio_bucket_indices (update_buckets_with_existing_files existing_files s).2)
    = Some ["a.png"].
Proof.
  intros s existing_files.
  assert (H1 : PyDict.wf (aspect_ratio_bucket_indices s))
    by (apply wf_by_decision; by_computation).
  split; [exact H1|].
  pose proof (proj2 (update_removes_stale_keeps_full_buckets existing_files s H1)
                "1:1" ["a.png"; "gone.png"] eq_refl) as Hkept.
  rewrite Hkept. by_computation.
Defined.

Lemma init_raises_on_non_object_cache_witness :
  let backend := s3_bucket [("cache.json", "[]")] in
  be_exists backend "/data/cache.json" = true
  ∧ be_read backend "/data/cache.json" = Ok "[]"
  ∧ json_loads (B:=S3.S3DataBackend) "[]" = Ok (JList [])
  ∧ (∀ d, JList [] ≠ JDict d)
  ∧ (__init__ backend "/data/cache.json").1.1 = Raise (AttributeError "get").
Proof.
  intros backend.
  assert (H1 : be_exists backend "/data/cache.json" = true) by by_computation.
  assert (H2 : be_read backend "/data/cache.json" = Ok "[]") by by_computation.
  assert (H3 : json_loads (B:=S3.S3DataBackend) "[]" = Ok (JList [])) by by_computation.
  assert (H4 : ∀ d, JList [] ≠ JDict d) by (intros d; discriminate).
  split; [exact H1|]. split; [exact H2|]. split; [exact H3|]. split; [exact H4|].
  exact (init_raises_on_non_object_cache backend _ _ _ H1 H2 H3 H4).
Defined.

Lemma compute_without_new_files_is_noop_witness :
  let s := manager three_images 2 [("1:1", ["a.png"; "b.png"])]
             ["a.png"; "b.png"; "c.png"] in
  (_discover_new_files s).1 = Ok []
  ∧ compute_aspect_ratio_bucket_indices [0; 1; 2] s = (Ok (), s).
Proof.
  intros s.
  assert (H1 : (_discover_new_files s).1 = Ok []) by by_computation.
  split; [exact H1|].
  exact (compute_without_new_files_is_noop [0; 1; 2] s H1).
Defined.

Lemma refresh_twice_is_idempotent_witness :
  let s0 := manager three_images 2 [] [] in
  let files := ["a.png"; "b.png"; "c.png"] in
  let s1 := (refresh_buckets [0; 1; 2] s0).2 in
  let s2 := (refresh_buckets [] s1).2 in
  PyDict.wf (aspect_ratio_bucket_indices s0)
  ∧ listed_files s0 = Ok files
  ∧ listed_files (compute_aspect_ratio_bucket_indices [0; 1; 2] s0).2 = Ok files
  ∧ (refresh_buckets [0; 1; 2] s0).1 = Ok ()
  ∧ listed_files s1 = Ok files
  ∧ aspect_ratio_bucket_indices s2 = aspect_ratio_bucket_indices s1.
Proof.
  intros s0 files s1 s2.
  assert (H1 : PyDict.wf (aspect_ratio_bucket_indices s0)) by apply wf_nil.
  assert (H2 : listed_files s0 = Ok files) by by_computation.
  assert (H3 : listed_files (compute_aspect_ratio_bucket_indices [0; 1; 2] s0).2 = Ok files)
    by by_computation.
  assert (H4 : (refresh_buckets [0; 1; 2] s0).1 = Ok ()) by by_computation.
  assert (H5 : listed_files s1 = Ok files) by by_computation.
  split; [exact H1|]. split; [exact H2|]. split; [exact H3|].
  split; [exact H4|]. split; [exact H5|].
  exact (proj1 (refresh_twice_is_idempotent [0; 1; 2] [] s0 files H1 H2 H3 H4 H5)).
Defined.

(** C10 as the spec states it does not hold: on a loaded index without
    any duplication, one [handle_incorrect_bucket] for an image that is
    not in the bucket named leaves [a.png] in two buckets. *)
Lemma misdirected_repair_duplicates_across_buckets :
  let s0 := manager two_images 1 [("1:1", ["a.png"]); ("16:9", ["b.png"])]
              ["a.png"; "b.png"] in
  let s := after [HandleIncorrectBucket "a.png" "16:9" "4:3"] s0 in
  no_cross_bucket_duplication (aspect_ratio_bucket_indices s0)
  ∧ aspect_ratio_bucket_indices s
    = [("1:1", ["a.png"]); ("16:9", ["b.png"]); ("4:3", ["a.png"])]
  ∧ ¬ no_cross_bucket_duplication (aspect_ratio_bucket_indices s).
Proof.
  intros s0 s.
  assert (Hidx : aspect_ratio_bucket_indices s
                 = [("1:1", ["a.png"]); ("16:9", ["b.png"]); ("4:3", ["a.png"])])
    by by_computation.
  split; [|split; [exact Hidx|]].
  - apply each_ref_once_no_cross_bucket.
    split; apply (bool_decide_unpack _); by vm_compute.
  - rewrite Hidx. intros Hnodup.
    assert (Heq : "1:1" = "4:3"); [|discriminate].
    apply (Hnodup "1:1" "4:3" ["a.png"] ["a.png"] "a.png");
      [reflexivity | reflexivity | apply list_elem_of_here..].
Qed.

(** The same from the empty index of a first run: a compute, then the
    misdirected repair. *)
Example misdirected_repair_after_first_compute :
  let s0 := manager two_images 1 [] [] in
  aspect_ratio_bucket_indices
    (after [Compute [0; 1]; HandleIncorrectBucket "a.png" "16:9" "4:3"] s0)
  = [("1:1", ["a.png"]); ("16:9", ["b.png"]); ("4:3", ["a.png"])].
Proof. by_computation. Qed.

Lemma no_cross_bucket_duplication_when_used_as_intended_witness :
  let s0 := manager two_images 1 [] [] in
  let s := (run (Compute [0; 1]) s0).2 in
  each_ref_once (aspect_ratio_bucket_indices s0)
  ∧ rtc step s0 s
  ∧ no_cross_bucket_duplication (aspect_ratio_bucket_indices s).
Proof.
  intros s0 s.
  assert (H1 : each_ref_once (aspect_ratio_bucket_indices s0)) by apply each_ref_once_nil.
  assert (H2 : rtc step s0 s).
  { apply rtc_once, step_call. intros new_files Hnew.
    vm_compute in Hnew. injection Hnew as <-.
    apply (bool_decide_unpack _). by vm_compute. }
  split; [exact H1|]. split; [exact H2|].
  exact (no_cross_bucket_duplication_when_used_as_intended s0 s H1 H2).
Defined.

(** * Counting images and repairing buckets *)

Section Counting.
Context {B : Type} `{!BaseDataBackend B, !Collaborators B}.
Implicit Types (s : BucketManager (B:=B)).

Lemma sum_list_lengths {A} (ls : list (list A)) :
  sum_list (length <$> ls) = length (concat ls).
Proof.
  induction ls as [|a ls IH]; [done|].
  rewrite fmap_cons. cbn [concat]. rewrite length_app, <-IH. done.
Qed.

Lemma __len___all_refs s : __len__ s = length (all_refs (aspect_ratio_bucket_indices s)).
Proof. apply sum_list_lengths. Qed.

Lemma length_all_refs_set bucket images images' (idx : index_t) :
  PyDict.get bucket idx = Some images →
  length (all_refs (PyDict.set bucket images' idx)) + length images
  = length (all_refs idx) + length images'.
Proof.
  intros (pre & post & -> & ->)%all_refs_set. rewrite !length_app. lia.
Qed.

Lemma length_list_remove x l : x ∈ l → length l = S (length (list_remove x l)).
Proof.
  intros (before & after & Hl & _ & ->)%list_remove_first.
  rewrite Hl at 1. rewrite !length_app. cbn. lia.
Qed.

(** X1: taking out an image that its bucket holds makes the manager one
    image shorter, also when the bucket holds the image more than once. *)
Theorem remove_image_shrinks_len_by_one image_path bucket images s :
  PyDict.get bucket (aspect_ratio_bucket_indices s) = Some images →
  image_path ∈ images →
  __len__ s = S (__len__ (remove_image image_path bucket s).2).
Proof.
  intros Hget Hin. rewrite (remove_image_some _ _ _ _ Hget).
  unfold list_in. rewrite bool_decide_eq_true_2 by done. cbn [snd].
  rewrite !__len___all_refs. cbn [aspect_ratio_bucket_indices with_index].
  pose proof (length_all_refs_set _ _ (list_remove image_path images) _ Hget).
  pose proof (length_list_remove _ _ Hin). lia.
Qed.

(** X2: [handle_incorrect_bucket] keeps the number of images when the
    image was in the bucket it is moved out of; when it was not, the
    manager ends up one image longer. *)
Theorem handle_incorrect_bucket_len image_path bucket actual_bucket images s :
  PyDict.get bucket (aspect_ratio_bucket_indices s) = Some images →
  __len__ (handle_incorrect_bucket image_path bucket actual_bucket s).2
  = if decide (image_path ∈ images) then __len__ s else S (__len__ s).
Proof.
  intros Hget. rewrite (handle_incorrect_bucket_some _ _ _ _ _ Hget).
  rewrite !__len___all_refs. cbn [snd aspect_ratio_bucket_indices with_index].
  rewrite all_refs_setdefault_extend, length_app. cbn [length].
  pose proof (length_all_refs_set _ _ (list_remove image_path images) _ Hget).
  case_decide as Hin.
  - pose proof (length_list_remove _ _ Hin). lia.
  - rewrite list_remove_notin in * by done. lia.
Qed.

(** X3: on a source bucket that the index does not have,
    [handle_incorrect_bucket] raises [KeyError] before it touches
    anything: the image is not added to the target bucket, and the
    target bucket is not created. *)
Theorem handle_incorrect_bucket_absent_source image_path bucket actual_bucket s :
  PyDict.get bucket (aspect_ratio_bucket_indices s) = None →
  handle_incorrect_bucket image_path bucket actual_bucket s
  = (Raise (KeyError bucket), s).
Proof.
  intros Hget. unfold handle_incorrect_bucket.
  by rewrite (bind_raise _ _ _ _ _ (remove_image_none image_path _ _ Hget)).
Qed.

(** X4: on a bucket that the index does not have, [remove_image] and
    [handle_small_image] without the delete flag raise [KeyError] and
    leave the manager as it was. *)
Theorem remove_image_absent_bucket image_path bucket s :
  PyDict.get bucket (aspect_ratio_bucket_indices s) = None →
  remove_image image_path bucket s = (Raise (KeyError bucket), s)
  ∧ handle_small_image image_path bucket false s = (Raise (KeyError bucket), s).
Proof.
  intros Hget. rewrite handle_small_image_keeps_file.
  split; by apply remove_image_none.
Qed.

(** X5: on a backend that has a [remove], [handle_small_image] with the
    delete flag calls it once on the image path, whatever it raises is
    swallowed, and on a bucket of the index the call succeeds: the
    backend is what [remove] left and the bucket list has lost the first
    occurrence of the image. *)
Theorem handle_small_image_deletes_then_removes remove image_path bucket images s :
  getattr_remove = Some remove →
  PyDict.get bucket (aspect_ratio_bucket_indices s) = Some images →
  let s' := (handle_small_image image_path bucket true s).2 in
  (handle_small_image image_path bucket true s).1 = Ok ()
  ∧ data_backend s' = (remove (data_backend s) image_path).2
  ∧ PyDict.get bucket (aspect_ratio_bucket_indices s')
    = Some (list_remove image_path images)
  ∧ instance_images_path s' = instance_images_path s.
Proof.
  intros Hattr Hget s'. subst s'.
  rewrite (handle_small_image_calls_remove _ _ _ _ Hattr).
  rewrite (remove_image_some _ _ images) by done. cbn [fst snd].
  unfold list_in.
  destruct (bool_decide_reflect (image_path ∈ images)) as [Hin|Hnin]; cbn.
  - split_and!; try done. apply get_set_eq.
  - split_and!; try done. by rewrite list_remove_notin.
Qed.

(** X6: the deletion comes first. On a bucket that the index does not
    have, [handle_small_image] with the delete flag has already called
    [remove] on the backend when it raises [KeyError]. *)
Theorem handle_small_image_deletes_before_key_error remove image_path bucket s :
  getattr_remove = Some remove →
  PyDict.get bucket (aspect_ratio_bucket_indices s) = None →
  handle_small_image image_path bucket true s
  = (Raise (KeyError bucket),
     with_backend (remove (data_backend s) image_path).2 s).
Proof.
  intros Hattr Hget. rewrite (handle_small_image_calls_remove _ _ _ _ Hattr).
  by apply remove_image_none.
Qed.
End Counting.

(** * More on discovery and bucketing *)

Section Discovery.
Context {B : Type} `{!BaseDataBackend B, !Collaborators B}.
Implicit Types (s : BucketManager (B:=B)).

(** X7: [_discover_new_files] reads and never writes. What it returns
    is the listing with the discovered files struck out: in listing
    order, and as often as the listing names them. When the listing
    fails, the exception passes through. *)
Theorem discover_new_files_is_the_undiscovered_listing s :
  (∀ files, listed_files s = Ok files →
     ∃ new_files,
       _discover_new_files s = (Ok new_files, s)
       ∧ new_files `sublist_of` files
       ∧ (∀ file, file ∈ new_files ↔ file ∈ files ∧ file ∉ instance_images_path s)
       ∧ (∀ file, file ∉ instance_images_path s →
            length (filter (λ f, f = file) new_files)
            = length (filter (λ f, f = file) files)))
  ∧ (∀ e, listed_files s = Raise e → _discover_new_files s = (Raise e, s)).
Proof.
  split.
  - intros files Hfiles. rewrite _discover_new_files_eq, Hfiles.
    eexists. split; [done|]. split_and!.
    + apply sublist_filter.
    + intros file. rewrite list_elem_of_filter. tauto.
    + intros file Hnew. rewrite list_filter_filter. f_equal.
      apply list_filter_iff. intros f. split; [tauto|]. intros ->. done.
  - intros e Hfiles. by rewrite _discover_new_files_eq, Hfiles.
Qed.

Lemma save_cache_images s :
  PyDict.wf (aspect_ratio_bucket_indices s) →
  instance_images_path (_save_cache s).2 = instance_images_path s.
Proof. intros Hwf. by rewrite _save_cache_spec. Qed.

Lemma compute_images drained s new_files :
  PyDict.wf (aspect_ratio_bucket_indices s) →
  (_discover_new_files s).1 = Ok new_files →
  instance_images_path (compute_aspect_ratio_bucket_indices drained s).2
  = instance_images_path s ∪ list_to_set new_files.
Proof.
  intros Hwf Hnew. destruct (decide (new_files = [])) as [->|Hne].
  - rewrite (compute_no_new_files _ _ Hnew). cbn. by rewrite union_empty_r_L.
  - rewrite (compute_new_files _ _ _ Hnew Hne).
    by rewrite save_cache_images by by apply wf_merge_all.
Qed.

(** X8: whatever the workers deliver and whether or not the save
    succeeds, a compute that got a listing adds exactly the new files to
    the discovered set and takes none out. *)
Theorem compute_records_every_new_file drained s new_files :
  PyDict.wf (aspect_ratio_bucket_indices s) →
  (_discover_new_files s).1 = Ok new_files →
  instance_images_path (compute_aspect_ratio_bucket_indices drained s).2
  = instance_images_path s ∪ list_to_set new_files.
Proof. apply compute_images. Qed.

(** X9: a compute right after a compute finds nothing to do. When the
    backend lists the same files, the second call returns without
    touching the manager or the backend, also when the first call's save
    failed or its workers delivered nothing. *)
Theorem compute_twice_second_is_noop drained1 drained2 s files :
  PyDict.wf (aspect_ratio_bucket_indices s) →
  listed_files s = Ok files →
  listed_files (compute_aspect_ratio_bucket_indices drained1 s).2 = Ok files →
  let s1 := (compute_aspect_ratio_bucket_indices drained1 s).2 in
  compute_aspect_ratio_bucket_indices drained2 s1 = (Ok (), s1).
Proof.
  intros Hwf Hfiles Hfiles1 s1. subst s1. apply compute_no_new_files.
  rewrite _discover_new_files_eq, Hfiles1. cbn [fst]. f_equal.
  apply filter_nil_in. intros file Hin Hnin. apply Hnin.
  assert (Hnew : (_discover_new_files s).1
                 = Ok (filter (λ f, f ∉ instance_images_path s) files))
    by by rewrite _discover_new_files_eq, Hfiles.
  rewrite (compute_images _ _ _ Hwf Hnew).
  destruct (decide (file ∈ instance_images_path s)); [by apply elem_of_union_l|].
  apply elem_of_union_r, elem_of_list_to_set. by apply list_elem_of_filter.
Qed.

(** *** Merging only appends *)

Lemma setdefault_extend_prefix key value (d : index_t) bucket images :
  PyDict.get bucket d = Some images →
  ∃ images', PyDict.get bucket (setdefault_extend key value d) = Some images'
             ∧ images `prefix_of` images'.
Proof.
  intros Hget. unfold setdefault_extend.
  destruct (decide (key = bucket)) as [->|Hne].
  - rewrite get_set_eq, Hget. eexists. split; [done|]. by apply prefix_app_r.
  - rewrite get_set_ne by done. by exists images.
Qed.

Lemma merge_update_prefix (d update : index_t) bucket images :
  PyDict.get bucket d = Some images →
  ∃ images', PyDict.get bucket (merge_update d update) = Some images'
             ∧ images `prefix_of` images'.
Proof.
  unfold merge_update. revert d images.
  induction update as [|[k v] update IH]; intros d images Hget; cbn [foldl].
  - by exists images.
  - destruct (setdefault_extend_prefix k v _ _ _ Hget) as (l1 & Hget1 & Hpre1).
    destruct (IH _ _ Hget1) as (l2 & Hget2 & Hpre2).
    exists l2. split; [done|]. by etrans.
Qed.

Lemma merge_all_prefix (d : index_t) updates bucket images :
  PyDict.get bucket d = Some images →
  ∃ images', PyDict.get bucket (foldl merge_update d updates) = Some images'
             ∧ images `prefix_of` images'.
Proof.
  revert d images.
  induction updates as [|u updates IH]; intros d images Hget; cbn [foldl].
  - by exists images.
  - destruct (merge_update_prefix _ u _ _ Hget) as (l1 & Hget1 & Hpre1).
    destruct (IH _ _ Hget1) as (l2 & Hget2 & Hpre2).
    exists l2. split; [done|]. by etrans.
Qed.

(** X10: a compute only appends. A bucket that has [batch_size] images
    before the call is still there after it, and its old list is the
    beginning of its new one: nothing is taken out of it or reordered,
    whatever the workers deliver and whatever the outcome of the call. *)
Theorem compute_only_appends_to_full_buckets drained s bucket images :
  PyDict.wf (aspect_ratio_bucket_indices s) →
  PyDict.get bucket (aspect_ratio_bucket_indices s) = Some images →
  (batch_size s ≤ Z.of_nat (length images))%Z →
  ∃ images',
    PyDict.get bucket
      (aspect_ratio_bucket_indices (compute_aspect_ratio_bucket_indices drained s).2)
    = Some images'
    ∧ images `prefix_of` images'.
Proof.
  intros Hwf Hget Hfull.
  destruct (_discover_new_files s).1 as [new_files|e] eqn:Hnew.
  - destruct (decide (new_files = [])) as [->|Hne].
    + rewrite (compute_no_new_files _ _ Hnew). by exists images.
    + rewrite (compute_new_files _ _ _ Hnew Hne).
      rewrite _save_cache_spec by by apply wf_merge_all.
      cbn [snd aspect_ratio_bucket_indices with_index with_images with_backend
           batch_size].
      edestruct (merge_all_prefix (aspect_ratio_bucket_indices s)) as (l & Hl & Hpre);
        [exact Hget|].
      exists l. split; [|done].
      rewrite get_prune, Hl by by apply wf_merge_all.
      apply prefix_length in Hpre. rewrite decide_False; [done|lia].
  - rewrite (compute_raises _ _ _ Hnew). by exists images.
Qed.

(** *** Files that are in a bucket already *)

Lemma _bucket_worker_all_existing files existing (b : B) :
  (∀ file, file ∈ files → file ∈ existing) →
  _bucket_worker files existing b = [].
Proof.
  unfold _bucket_worker. generalize ([] : index_t).
  induction files as [|f files IH]; intros acc Hfiles; [done|].
  cbn [foldl]. rewrite decide_True by apply Hfiles, list_elem_of_here.
  apply IH. intros file Hin. by apply Hfiles, list_elem_of_further.
Qed.

Lemma merge_nothing (d : index_t) (updates : list index_t) :
  (∀ u, u ∈ updates → u = []) → foldl merge_update d updates = d.
Proof.
  induction updates as [|u updates IH]; intros Hall; [done|].
  cbn [foldl]. rewrite (Hall u) by apply list_elem_of_here.
  apply IH. intros u' Hu'. by apply Hall, list_elem_of_further.
Qed.

(** X11: a file that is in some bucket already is never bucketed again.
    When every new file is (the discovered set lags behind the index),
    the compute adds nothing to any bucket: the index is only pruned by
    the save. *)
Theorem compute_skips_files_already_in_a_bucket drained s new_files :
  PyDict.wf (aspect_ratio_bucket_indices s) →
  (_discover_new_files s).1 = Ok new_files → new_files ≠ [] →
  (∀ file, file ∈ new_files → file ∈ all_refs (aspect_ratio_bucket_indices s)) →
  aspect_ratio_bucket_indices (compute_aspect_ratio_bucket_indices drained s).2
  = prune (batch_size s) (aspect_ratio_bucket_indices s).
Proof.
  intros Hwf Hnew Hne Hexisting.
  rewrite (compute_new_files _ _ _ Hnew Hne).
  rewrite merge_nothing.
  - by rewrite _save_cache_spec.
  - intros u Hu. unfold received_results in Hu.
    apply list_elem_of_omap in Hu as (i & _ & Hi).
    unfold worker_results in Hi. change (map ?f ?l) with (f <$> l) in Hi.
    rewrite list_lookup_fmap in Hi.
    destruct (array_split new_files num_cpus !! i) as [shard|] eqn:Hshard; [|done].
    injection Hi as <-. apply _bucket_worker_all_existing.
    intros file Hin. apply elem_of_union_of_values, Hexisting.
    eapply elem_of_sublist; [|apply (concat_array_split_sublist _ num_cpus)].
    apply elem_of_concat. exists shard. split; [|done].
    by eapply list_elem_of_lookup_2.
Qed.
End Discovery.

(** * More on pruning, updating and refreshing *)

Section Updating.
Context {B : Type} `{!BaseDataBackend B, !Collaborators B}.
Implicit Types (s : BucketManager (B:=B)).

Lemma prune_restrict_twice batch (e1 e2 : gset string) (idx : index_t) :
  prune batch (restrict e2 (prune batch (restrict e1 idx)))
  = prune batch (restrict (e1 ∩ e2) idx).
Proof.
  unfold prune, restrict. induction idx as [|[k v] idx IH]; [done|].
  cbn [map fst snd].
  assert (Hboth : filter (λ img, img ∈ e2) (filter (λ img, img ∈ e1) v)
                  = filter (λ img, img ∈ e1 ∩ e2) v).
  { rewrite list_filter_filter. apply list_filter_iff. intros x.
    rewrite elem_of_intersection. tauto. }
  assert (Hle : length (filter (λ img, img ∈ e1 ∩ e2) v)
                ≤ length (filter (λ img, img ∈ e1) v)).
  { rewrite <-Hboth. apply length_filter. }
  rewrite !filter_cons. cbn [snd].
  destruct (decide (batch ≤ Z.of_nat (length (filter (λ img, img ∈ e1) v)))%Z).
  - cbn [map fst snd]. rewrite filter_cons. cbn [snd]. rewrite Hboth, IH.
    done.
  - rewrite IH. rewrite decide_False by lia. done.
Qed.

Lemma update_state existing s :
  PyDict.wf (aspect_ratio_bucket_indices s) →
  let idx := prune (batch_size s) (restrict existing (aspect_ratio_bucket_indices s)) in
  let w := be_write (data_backend s) (cache_file s)
             (json_dumps (cache_data idx (instance_images_path s))) in
  update_buckets_with_existing_files existing s
  = (w.1, with_backend w.2 (with_index idx s)).
Proof.
  intros Hwf. rewrite update_buckets_with_existing_files_spec by done.
  by rewrite _save_cache_spec by by apply wf_restrict.
Qed.

(** X12: two updates in a row are one update with the files that are in
    both sets; in particular an update with the same set twice changes
    the index once. *)
Theorem update_twice_is_update_with_intersection existing1 existing2 s :
  PyDict.wf (aspect_ratio_bucket_indices s) →
  let s1 := (update_buckets_with_existing_files existing1 s).2 in
  aspect_ratio_bucket_indices (update_buckets_with_existing_files existing2 s1).2
  = aspect_ratio_bucket_indices
      (update_buckets_with_existing_files (existing1 ∩ existing2) s).2
  ∧ aspect_ratio_bucket_indices (update_buckets_with_existing_files existing1 s1).2
    = aspect_ratio_bucket_indices s1.
Proof.
  intros Hwf s1. subst s1.
  rewrite (update_state existing1 s), (update_state (existing1 ∩ existing2) s) by done.
  cbn [snd]. rewrite !update_state by (cbn; by apply wf_prune, wf_restrict).
  cbn [snd aspect_ratio_bucket_indices with_index with_backend batch_size].
  split; [apply prune_restrict_twice|].
  rewrite prune_restrict_twice. f_equal. f_equal. apply leibniz_equiv.
  apply intersection_idemp.
Qed.

(** X13: every save leaves an index in which each bucket has at least
    [batch_size] images, the buckets that stay keep their order, and a
    second save right after changes nothing in it. *)
Theorem save_cache_leaves_full_buckets_only s :
  PyDict.wf (aspect_ratio_bucket_indices s) →
  let s1 := (_save_cache s).2 in
  (∀ bucket images,
     PyDict.get bucket (aspect_ratio_bucket_indices s1) = Some images →
     (batch_size s ≤ Z.of_nat (length images))%Z)
  ∧ aspect_ratio_bucket_indices s1 `sublist_of` aspect_ratio_bucket_indices s
  ∧ aspect_ratio_bucket_indices (_save_cache s1).2 = aspect_ratio_bucket_indices s1.
Proof.
  intros Hwf s1. subst s1. rewrite (_save_cache_spec s) by done. cbn [snd].
  rewrite _save_cache_spec by (cbn; by apply wf_prune).
  cbn [snd aspect_ratio_bucket_indices with_index with_backend batch_size].
  split_and!.
  - intros bucket images Hget%get_Some_elem.
    by apply list_elem_of_filter in Hget as [? _].
  - apply sublist_filter.
  - unfold prune. rewrite list_filter_filter. apply list_filter_iff. tauto.
Qed.

(** X14: after a refresh that succeeded, every bucket has at least
    [batch_size] images, every image in a bucket is a file the backend
    listed, and every file it listed is in the discovered set. *)
Theorem refresh_leaves_listed_images_in_full_buckets drained s files :
  PyDict.wf (aspect_ratio_bucket_indices s) →
  listed_files s = Ok files →
  listed_files (compute_aspect_ratio_bucket_indices drained s).2 = Ok files →
  (refresh_buckets drained s).1 = Ok () →
  let s' := (refresh_buckets drained s).2 in
  (∀ bucket images,
     PyDict.get bucket (aspect_ratio_bucket_indices s') = Some images →
     (batch_size s ≤ Z.of_nat (length images))%Z
     ∧ ∀ image, image ∈ images → image ∈ files)
  ∧ (∀ file, file ∈ files → file ∈ instance_images_path s').
Proof.
  intros Hwf Hfiles Hfilesm Hok.
  destruct (compute_effect drained s Hwf) as ((Hbs & _ & _) & Hwfm & Himages).
  specialize (Himages files Hfiles).
  rewrite refresh_buckets_eq in Hok |- *.
  destruct (compute_aspect_ratio_bucket_indices drained s) as [[[]|e] sm]; [|done].
  cbn [fst snd] in *. specialize (Himages eq_refl).
  rewrite Hfilesm in Hok |- *. rewrite update_state by done.
  cbn [snd aspect_ratio_bucket_indices with_index with_backend instance_images_path].
  split; [|done].
  intros bucket images Hget%get_Some_elem.
  apply list_elem_of_filter in Hget as [Hfull Hin]. cbn [snd] in Hfull.
  split; [by rewrite <-Hbs|].
  apply list_elem_of_fmap in Hin as ([k v] & [= -> ->] & _). cbn [snd].
  intros image [Himg _]%list_elem_of_filter. by apply elem_of_list_to_set in Himg.
Qed.
End Updating.

Section Splitting.
Context {B : Type} `{!BaseDataBackend B, !Collaborators B}.
Context {A : Type} `{!Accelerator A}.
Implicit Types (s : BucketManager (B:=B)).

Lemma set_new_key (d : index_t) k v :
  k ∉ PyDict.keys d → PyDict.set k v d = d ++ [(k, v)].
Proof.
  unfold PyDict.keys. induction d as [|[k0 v0] d IH]; [done|].
  rewrite fmap_cons, not_elem_of_cons. intros [Hne Hnin]. cbn.
  rewrite decide_False by done. by rewrite IH.
Qed.

Lemma fill_new_dict (f : list string → list string) (done_ idx : index_t) :
  PyDict.wf (done_ ++ idx) →
  foldl (λ new '(bucket, images), PyDict.set bucket (f images) new)
        (map (λ kv, (kv.1, f kv.2)) done_) idx
  = map (λ kv, (kv.1, f kv.2)) (done_ ++ idx).
Proof.
  revert done_. induction idx as [|[k v] idx IH]; intros done_ Hwf; cbn [foldl].
  - by rewrite app_nil_r.
  - rewrite set_new_key.
    + specialize (IH (done_ ++ [(k, v)])). rewrite <-app_assoc in IH. cbn [app] in IH.
      rewrite <-IH by done. by rewrite map_app.
    + rewrite keys_map. unfold PyDict.wf, PyDict.keys in *.
      rewrite fmap_app, fmap_cons in Hwf. apply NoDup_app in Hwf as (_ & Hdisj & _).
      intros Hin. apply (Hdisj _ Hin), list_elem_of_here.
Qed.

(** X15: [split_buckets_between_processes] gives every bucket the share
    the accelerator cuts out of its own list. It drops no bucket, not
    even one whose share is empty or shorter than [batch_size], keeps
    the order of the buckets, and touches neither the discovered set nor
    the backend. *)
Theorem split_buckets_keeps_every_bucket (accelerator : A) apply_dataset_padding s :
  PyDict.wf (aspect_ratio_bucket_indices s) →
  ∃ idx',
    split_buckets_between_processes accelerator apply_dataset_padding s
    = (Ok (), with_index idx' s)
    ∧ PyDict.keys idx' = PyDict.keys (aspect_ratio_bucket_indices s)
    ∧ ∀ bucket,
        PyDict.get bucket idx'
        = (λ images, split_between_processes accelerator images apply_dataset_padding)
          <$> PyDict.get bucket (aspect_ratio_bucket_indices s).
Proof.
  intros Hwf. unfold split_buckets_between_processes, mbind, M_bind. cbn [get_self].
  pose proof (fill_new_dict
    (λ images, split_between_processes accelerator images apply_dataset_padding)
    [] (aspect_ratio_bucket_indices s) Hwf) as Hfill.
  cbn [map app] in Hfill. rewrite Hfill.
  eexists. split; [done|].
  split.
  - apply (keys_map
      (λ images, split_between_processes accelerator images apply_dataset_padding)).
  - intros bucket.
    apply (get_map
      (λ images, split_between_processes accelerator images apply_dataset_padding)).
Qed.
End Splitting.

(** * The seen images *)

Section Seen_facts.
Implicit Types (seen : gmap string bool) (calls : list Seen.call).

Lemma is_seen_mark image_path other seen :
  Seen.is_seen image_path (Seen.mark_as_seen other seen)
  = if decide (other = image_path) then true else Seen.is_seen image_path seen.
Proof.
  unfold Seen.is_seen, Seen.mark_as_seen. rewrite lookup_insert.
  by case_decide.
Qed.

Lemma seen_stays_seen image_path calls seen :
  Seen.ResetSeenImages ∉ calls →
  Seen.is_seen image_path seen = true →
  Seen.is_seen image_path (Seen.after calls seen) = true.
Proof.
  unfold Seen.after. revert seen.
  induction calls as [|c calls IH]; intros seen Hreset Hseen; [done|].
  apply not_elem_of_cons in Hreset as [Hc Hreset]. cbn [foldl].
  apply IH; [done|]. destruct c as [other|]; [|done].
  cbn [Seen.run]. rewrite is_seen_mark. by case_decide.
Qed.

Lemma unseen_stays_unseen image_path calls seen :
  Seen.MarkAsSeen image_path ∉ calls →
  Seen.is_seen image_path seen = false →
  Seen.is_seen image_path (Seen.after calls seen) = false.
Proof.
  unfold Seen.after. revert seen.
  induction calls as [|c calls IH]; intros seen Hmark Hseen; [done|].
  apply not_elem_of_cons in Hmark as [Hc Hmark]. cbn [foldl].
  apply IH; [done|]. destruct c as [other|]; cbn [Seen.run].
  - rewrite is_seen_mark. case_decide; [congruence|done].
  - done.
Qed.

(** X16: an image is seen from the call that marks it until the next
    reset, whatever else is marked in between; and after a reset, or
    from an empty dictionary, an image that is not marked again is not
    seen, whatever was marked before. *)
Theorem seen_from_mark_until_reset image_path before later seen :
  (Seen.ResetSeenImages ∉ later →
     Seen.is_seen image_path
       (Seen.after (before ++ Seen.MarkAsSeen image_path :: later) seen) = true)
  ∧ (Seen.MarkAsSeen image_path ∉ later →
       Seen.is_seen image_path
         (Seen.after (before ++ Seen.ResetSeenImages :: later) seen) = false)
  ∧ (Seen.MarkAsSeen image_path ∉ later →
       Seen.is_seen image_path (Seen.after later ∅) = false).
Proof.
  split_and!.
  - intros Hreset. unfold Seen.after. rewrite foldl_app. cbn [foldl].
    apply seen_stays_seen; [done|]. cbn [Seen.run]. rewrite is_seen_mark.
    by rewrite decide_True.
  - intros Hmark. unfold Seen.after. rewrite foldl_app. cbn [foldl].
    by apply unseen_stays_unseen.
  - intros Hmark. by apply unseen_stays_unseen.
Qed.
End Seen_facts.

(** * More on loading the cache *)

Section Loading.
Context {B : Type} `{!BaseDataBackend B, !Collaborators B}.
Implicit Types (s : BucketManager (B:=B)).

Lemma as_strings_of_strings (l : list string) : as_strings (JStr <$> l) = Some l.
Proof. unfold as_strings. by apply mapM_fmap_Some. Qed.

Lemma as_index_of_index (idx : index_t) :
  as_index (JDict (map (λ kv, (kv.1, JList (JStr <$> kv.2))) idx)) = Some idx.
Proof.
  unfold as_index.
  apply (mapM_fmap_Some _ (λ kv : string * list string, (kv.1, JList (JStr <$> kv.2)))).
  intros [k v]. cbn [fst snd]. by rewrite as_strings_of_strings.
Qed.

Lemma strings_are_hashable (l : list string) : forallb hashable (JStr <$> l) = true.
Proof. induction l as [|x l IH]; [done|]. by rewrite fmap_cons. Qed.

Lemma doc_images_of_cache_data idx images :
  doc_instance_images_path (cache_data idx images) = set_iter images.
Proof. cbn. unfold py_str. apply map_id. Qed.

(** X17: what a save wrote, a construction reads back. When the backend
    returns the saved bytes and the decoder undoes the encoder on them,
    a manager built on that backend starts, without a warning, from the
    index the save left and from the discovered files in the order the
    save listed them. *)
Theorem save_then_load_round_trip s :
  PyDict.wf (aspect_ratio_bucket_indices s) →
  let s' := (_save_cache s).2 in
  let doc := cache_data (aspect_ratio_bucket_indices s') (instance_images_path s') in
  be_exists (data_backend s') (cache_file s) = true →
  be_read (data_backend s') (cache_file s) = Ok (json_dumps doc) →
  json_loads (json_dumps doc) = Ok (json_of_document doc) →
  (__init__ (data_backend s') (cache_file s)).1.1 = Ok ()
  ∧ (__init__ (data_backend s') (cache_file s)).2 = []
  ∧ as_manager (data_backend s') (batch_size s) (instance_data_root s) (cache_file s)
      (__init__ (data_backend s') (cache_file s)).1.2
    = Some (with_images (list_to_set (set_iter (instance_images_path s))) s').
Proof.
  intros Hwf s' doc Hexists Hread Hloads. subst doc.
  unfold __init__, _load_cache. rewrite Hexists, Hread, Hloads.
  unfold json_of_document. rewrite doc_index_of_cache_data, doc_images_of_cache_data.
  cbn [json_get PyDict.get default].
  repeat (case_decide; [try done|try done]). cbn [default].
  unfold id, py_set. rewrite strings_are_hashable. cbn [fst snd].
  split; [done|]. split; [done|].
  unfold as_manager. cbn [attr_aspect_ratio_bucket_indices attr_instance_images_path].
  rewrite as_index_of_index, as_strings_of_strings. cbn.
  subst s'. rewrite _save_cache_spec by done. done.
Qed.

(** X18: a cache document that is an object without the
    ["instance_images_path"] field loads with an empty discovered set,
    and without the ["aspect_ratio_bucket_indices"] field with an empty
    index: a missing field is no error and gives no warning. *)
Theorem load_cache_defaults_missing_fields (b : B) cache_file raw d :
  be_exists b cache_file = true →
  be_read b cache_file = Ok raw →
  json_loads raw = Ok (JDict d) →
  PyDict.get "instance_images_path" d = None →
  __init__ b cache_file
  = (Ok (),
     {| attr_aspect_ratio_bucket_indices :=
          default (JDict []) (PyDict.get "aspect_ratio_bucket_indices" d);
        attr_instance_images_path := [] |},
     []).
Proof.
  intros Hexists Hread Hloads Hmissing.
  unfold __init__, _load_cache. rewrite Hexists, Hread, Hloads.
  cbn [json_get]. by rewrite Hmissing.
Qed.
End Loading.

(** * The S3 backend *)

Section S3_keys.
Context {C : Type} `{!S3.Boto3 C}.
Implicit Types (self : S3.S3DataBackend (C:=C)).

Lemma split_on_not_nil sep path : S3.split_on sep path ≠ [].
Proof.
  destruct path as [|c path]; cbn; [done|].
  destruct (decide (c = sep)); [done|]. by destruct (S3.split_on sep path).
Qed.

Lemma split_on_app sep dir name :
  S3.split_on sep (dir +:+ String sep name)
  = S3.split_on sep dir ++ S3.split_on sep name.
Proof.
  induction dir as [|c dir IH]; simpl.
  - by rewrite decide_True.
  - destruct (decide (c = sep)) as [->|Hne]; [by rewrite IH|].
    rewrite IH. pose proof (split_on_not_nil sep dir).
    by destruct (S3.split_on sep dir).
Qed.

Lemma split_on_no_sep sep name :
  sep ∉ String.list_ascii_of_string name → S3.split_on sep name = [name].
Proof.
  induction name as [|c name IH]; cbn [String.list_ascii_of_string S3.split_on]; [done|].
  rewrite not_elem_of_cons. intros [Hne Hnin].
  rewrite decide_False by done. by rewrite IH.
Qed.

Lemma split_on_segments sep path :
  Forall (λ seg, sep ∉ String.list_ascii_of_string seg) (S3.split_on sep path).
Proof.
  induction path as [|c path IH]; cbn [S3.split_on].
  - apply Forall_singleton. apply not_elem_of_nil.
  - destruct (decide (c = sep)) as [->|Hne].
    + apply Forall_cons. split; [apply not_elem_of_nil | done].
    + destruct (S3.split_on sep path) as [|seg segs].
      * apply Forall_singleton. cbn. rewrite not_elem_of_cons.
        split; [done | apply not_elem_of_nil].
      * apply Forall_cons in IH as [Hseg Hsegs]. apply Forall_cons.
        split; [|done]. cbn. rewrite not_elem_of_cons. by split.
Qed.

Lemma key_of_path_in_directory dir name :
  no_slash name → S3._convert_path_to_key (dir +:+ String "/" name) = name.
Proof.
  unfold S3._convert_path_to_key, no_slash. intros Hname.
  by rewrite split_on_app, last_app, split_on_no_sep.
Qed.

Lemma key_of_bare_name name :
  no_slash name → S3._convert_path_to_key name = name.
Proof.
  unfold S3._convert_path_to_key, no_slash. intros Hname.
  by rewrite split_on_no_sep.
Qed.

Lemma key_has_no_slash path : no_slash (S3._convert_path_to_key path).
Proof.
  unfold S3._convert_path_to_key, no_slash.
  pose proof (split_on_segments "/" path) as Hsegs.
  destruct (last (S3.split_on "/" path)) as [seg|] eqn:Hlast; cbn [default].
  - apply last_Some_elem_of in Hlast.
    by apply (proj1 (Forall_forall _ _) Hsegs).
  - apply not_elem_of_nil.
Qed.

(** X19: the S3 key of a path is its last component. For a file name
    without a separator, any directory in front is dropped and a path
    that is the bare name is its own key; the key of any path holds no
    separator, so converting twice is converting once. *)
Theorem convert_path_to_key_is_the_basename dir name path :
  (no_slash name → S3._convert_path_to_key (dir +:+ String "/" name) = name)
  ∧ (no_slash name → S3._convert_path_to_key name = name)
  ∧ no_slash (S3._convert_path_to_key path)
  ∧ S3._convert_path_to_key (S3._convert_path_to_key path)
    = S3._convert_path_to_key path.
Proof.
  split_and!.
  - apply key_of_path_in_directory.
  - apply key_of_bare_name.
  - apply key_has_no_slash.
  - apply key_of_bare_name, key_has_no_slash.
Qed.

Lemma same_key_same_object self path path' :
  S3._convert_path_to_key path = S3._convert_path_to_key path' →
  S3.exists_ self path = S3.exists_ self path'
  ∧ S3.read self path = S3.read self path'
  ∧ (∀ data, S3.write self path data = S3.write self path' data)
  ∧ S3.delete self path = S3.delete self path'.
Proof.
  intros Hkey. unfold S3.exists_, S3.read, S3.write, S3.delete.
  by rewrite Hkey.
Qed.

(** X20: the S3 backend does not tell directories apart. Two paths that
    end in the same file name are one object to [exists], [read],
    [write] and [delete], and a bare file name is the same object too. *)
Theorem s3_ignores_directories self dir dir' name :
  no_slash name →
  let path := dir +:+ String "/" name in
  let path' := dir' +:+ String "/" name in
  S3.exists_ self path = S3.exists_ self path'
  ∧ S3.read self path = S3.read self path'
  ∧ (∀ data, S3.write self path data = S3.write self path' data)
  ∧ S3.delete self path = S3.delete self path'
  ∧ S3.read self path = S3.read self name.
Proof.
  intros Hname path path'. subst path path'.
  assert (Hkey : S3._convert_path_to_key (dir +:+ String "/" name)
                 = S3._convert_path_to_key (dir' +:+ String "/" name))
    by by rewrite !key_of_path_in_directory.
  assert (Hbare : S3._convert_path_to_key (dir +:+ String "/" name)
                  = S3._convert_path_to_key name)
    by by rewrite key_of_path_in_directory, key_of_bare_name.
  destruct (same_key_same_object self _ _ Hkey) as (? & ? & ? & ?).
  destruct (same_key_same_object self _ _ Hbare) as (_ & ? & _).
  done.
Qed.
End S3_keys.

Section S3_listing.
Context {C : Type} `{!S3.Boto3 C}.
Implicit Types (self : S3.S3DataBackend (C:=C)).

(** X21: [list_files] always lists the whole bucket, whatever
    [instance_data_root] is. On a bucket whose listing has no contents
    it returns the empty list; otherwise it returns the listed keys that
    match the pattern, in listing order; an error of the listing passes
    through. *)
Theorem s3_list_files_filters_the_whole_bucket self str_pattern root :
  (∀ root', S3.list_files self str_pattern root' = S3.list_files self str_pattern root)
  ∧ (S3.list_objects_v2 (S3.client self) (S3.bucket_name self) EmptyString = Ok None →
       S3.list_files self str_pattern root = Ok [])
  ∧ (∀ keys,
       S3.list_objects_v2 (S3.client self) (S3.bucket_name self) EmptyString
       = Ok (Some keys) →
       ∃ files,
         S3.list_files self str_pattern root = Ok files
         ∧ files `sublist_of` keys
         ∧ ∀ file, file ∈ files ↔ file ∈ keys ∧ S3.fnmatch file str_pattern = true)
  ∧ (∀ e,
       S3.list_objects_v2 (S3.client self) (S3.bucket_name self) EmptyString = Raise e →
       S3.list_files self str_pattern root = Raise e).
Proof.
  unfold S3.list_files, S3.list_by_prefix. split_and!.
  - done.
  - by intros ->.
  - intros keys ->. eexists. split; [done|]. split; [apply sublist_filter|].
    intros file. rewrite list_elem_of_filter, Is_true_true. tauto.
  - by intros e ->.
Qed.
End S3_listing.

Section S3_under_the_manager.
Context {C : Type} `{!S3.Boto3 C} `{!Collaborators (S3.S3DataBackend (C:=C))}.
Implicit Types (s : BucketManager (B:=S3.S3DataBackend (C:=C))).

Lemma unpack_key_ok k files :
  unpack_files (Key k) = Ok files → String.length k = 3.
Proof.
  destruct k as [|c1 [|c2 [|c3 [|c4 k]]]]; cbn; try done.
Qed.

Lemma unpack_key_raises k e : unpack_files (Key k) = Raise e → e = ValueError.
Proof.
  destruct k as [|c1 [|c2 [|c3 [|c4 k]]]]; cbn; congruence.
Qed.

Lemma flatten_keys_raises (keys : list string) file :
  file ∈ keys → String.length file ≠ 3 →
  flatten_files (Key <$> keys) = Raise ValueError.
Proof.
  intros Hin Hlen. induction keys as [|k keys IH]; [by apply elem_of_nil in Hin|].
  rewrite fmap_cons. cbn [flatten_files].
  destruct (unpack_files (Key k)) as [files|e] eqn:Hk.
  - apply unpack_key_ok in Hk.
    apply elem_of_cons in Hin as [->|Hin]; [done|]. by rewrite IH.
  - by apply unpack_key_raises in Hk as ->.
Qed.

(** X22: the manager cannot discover files on the S3 backend. The
    backend lists bare keys where the manager unpacks triples, so as
    soon as the listing holds a key that is not three characters long,
    [_discover_new_files] raises [ValueError], and
    [compute_aspect_ratio_bucket_indices] and [refresh_buckets] with it,
    leaving the manager untouched; only an empty listing goes through. *)
Theorem s3_listing_breaks_discovery drained s :
  (∀ keys file,
     S3.list_files (data_backend s) image_pattern (instance_data_root s) = Ok keys →
     file ∈ keys → String.length file ≠ 3 →
     _discover_new_files s = (Raise ValueError, s)
     ∧ compute_aspect_ratio_bucket_indices drained s = (Raise ValueError, s)
     ∧ refresh_buckets drained s = (Raise ValueError, s))
  ∧ (S3.list_files (data_backend s) image_pattern (instance_data_root s) = Ok [] →
       _discover_new_files s = (Ok [], s)).
Proof.
  split.
  - intros keys file Hkeys Hin Hlen.
    assert (Hdiscover : _discover_new_files s = (Raise ValueError, s)).
    { rewrite _discover_new_files_eq. unfold listed_files. cbn [be_list_files S3.S3_backend].
      rewrite Hkeys. change (map Key keys) with (Key <$> keys).
      by rewrite (flatten_keys_raises _ _ Hin Hlen). }
    assert (Hcompute : compute_aspect_ratio_bucket_indices drained s
                       = (Raise ValueError, s)).
    { apply compute_raises. by rewrite Hdiscover. }
    split; [done|]. split; [done|].
    by rewrite refresh_buckets_eq, Hcompute.
  - intros Hkeys. rewrite _discover_new_files_eq. unfold listed_files.
    cbn [be_list_files S3.S3_backend]. by rewrite Hkeys.
Qed.
End S3_under_the_manager.

(** * The further statements on concrete managers *)

Lemma remove_image_shrinks_len_by_one_witness :
  let s := manager three_images 1 [("1:1", ["a.png"; "b.png"; "a.png"])] [] in
  PyDict.get "1:1" (aspect_ratio_bucket_indices s) = Some ["a.png"; "b.png"; "a.png"]
  ∧ "a.png" ∈ ["a.png"; "b.png"; "a.png"]
  ∧ __len__ s = S (__len__ (remove_image "a.png" "1:1" s).2).
Proof.
  intros s.
  assert (H1 : PyDict.get "1:1" (aspect_ratio_bucket_indices s)
               = Some ["a.png"; "b.png"; "a.png"]) by reflexivity.
  assert (H2 : "a.png" ∈ ["a.png"; "b.png"; "a.png"]) by apply list_elem_of_here.
  split; [exact H1|]. split; [exact H2|].
  exact (remove_image_shrinks_len_by_one "a.png" "1:1" _ s H1 H2).
Defined.

Lemma handle_incorrect_bucket_len_witness :
  let s := manager three_images 1 [("1:1", ["a.png"]); ("16:9", ["c.png"])] [] in
  PyDict.get "16:9" (aspect_ratio_bucket_indices s) = Some ["c.png"]
  ∧ __len__ (handle_incorrect_bucket "a.png" "16:9" "4:3" s).2 = 3.
Proof.
  intros s.
  assert (H1 : PyDict.get "16:9" (aspect_ratio_bucket_indices s) = Some ["c.png"])
    by reflexivity.
  split; [exact H1|].
  rewrite (handle_incorrect_bucket_len "a.png" "16:9" "4:3" _ s H1). by_computation.
Defined.

Lemma handle_incorrect_bucket_absent_source_witness :
  let s := manager three_images 1 [("1:1", ["a.png"])] [] in
  PyDict.get "16:9" (aspect_ratio_bucket_indices s) = None
  ∧ handle_incorrect_bucket "a.png" "16:9" "4:3" s = (Raise (KeyError "16:9"), s).
Proof.
  intros s.
  assert (H1 : PyDict.get "16:9" (aspect_ratio_bucket_indices s) = None) by reflexivity.
  split; [exact H1|].
  exact (handle_incorrect_bucket_absent_source "a.png" "16:9" "4:3" s H1).
Defined.

Lemma remove_image_absent_bucket_witness :
  let s := manager three_images 1 [("1:1", ["a.png"])] [] in
  PyDict.get "16:9" (aspect_ratio_bucket_indices s) = None
  ∧ remove_image "a.png" "16:9" s = (Raise (KeyError "16:9"), s).
Proof.
  intros s.
  assert (H1 : PyDict.get "16:9" (aspect_ratio_bucket_indices s) = None) by reflexivity.
  split; [exact H1|].
  exact (proj1 (remove_image_absent_bucket "a.png" "16:9" s H1)).
Defined.

Lemma handle_small_image_deletes_then_removes_witness :
  let s := manager three_images 1 [("1:1", ["a.png"; "b.png"])] [] in
  getattr_remove = Some dir_delete
  ∧ PyDict.get "1:1" (aspect_ratio_bucket_indices s) = Some ["a.png"; "b.png"]
  ∧ data_backend (handle_small_image "a.png" "1:1" true s).2
    = (dir_delete three_images "a.png").2.
Proof.
  intros s.
  assert (H1 : getattr_remove = Some dir_delete) by reflexivity.
  assert (H2 : PyDict.get "1:1" (aspect_ratio_bucket_indices s) = Some ["a.png"; "b.png"])
    by reflexivity.
  split; [exact H1|]. split; [exact H2|].
  exact (proj1 (proj2 (handle_small_image_deletes_then_removes
                         dir_delete "a.png" "1:1" _ s H1 H2))).
Defined.

Lemma handle_small_image_deletes_before_key_error_witness :
  let s := manager three_images 1 [("1:1", ["a.png"; "b.png"])] [] in
  getattr_remove = Some dir_delete
  ∧ PyDict.get "16:9" (aspect_ratio_bucket_indices s) = None
  ∧ handle_small_image "c.png" "16:9" true s
    = (Raise (KeyError "16:9"), with_backend (dir_delete three_images "c.png").2 s).
Proof.
  intros s.
  assert (H1 : getattr_remove = Some dir_delete) by reflexivity.
  assert (H2 : PyDict.get "16:9" (aspect_ratio_bucket_indices s) = None) by reflexivity.
  split; [exact H1|]. split; [exact H2|].
  exact (handle_small_image_deletes_before_key_error dir_delete "c.png" "16:9" s H1 H2).
Defined.

Lemma compute_records_every_new_file_witness :
  let s := manager three_images 2 [] ["a.png"] in
  PyDict.wf (aspect_ratio_bucket_indices s)
  ∧ (_discover_new_files s).1 = Ok ["b.png"; "c.png"]
  ∧ instance_images_path (compute_aspect_ratio_bucket_indices [] s).2
    = instance_images_path s ∪ list_to_set ["b.png"; "c.png"].
Proof.
  intros s.
  assert (H1 : PyDict.wf (aspect_ratio_bucket_indices s)) by apply wf_nil.
  assert (H2 : (_discover_new_files s).1 = Ok ["b.png"; "c.png"]) by by_computation.
  split; [exact H1|]. split; [exact H2|].
  exact (compute_records_every_new_file [] s _ H1 H2).
Defined.

Lemma compute_twice_second_is_noop_witness :
  let s := manager three_images 2 [] [] in
  let files := ["a.png"; "b.png"; "c.png"] in
  let s1 := (compute_aspect_ratio_bucket_indices [] s).2 in
  PyDict.wf (aspect_ratio_bucket_indices s)
  ∧ listed_files s = Ok files
  ∧ listed_files s1 = Ok files
  ∧ compute_aspect_ratio_bucket_indices [0; 1; 2] s1 = (Ok (), s1).
Proof.
  intros s files s1.
  assert (H1 : PyDict.wf (aspect_ratio_bucket_indices s)) by apply wf_nil.
  assert (H2 : listed_files s = Ok files) by by_computation.
  assert (H3 : listed_files s1 = Ok files) by by_computation.
  split; [exact H1|]. split; [exact H2|]. split; [exact H3|].
  exact (compute_twice_second_is_noop [] [0; 1; 2] s files H1 H2 H3).
Defined.

Lemma compute_only_appends_to_full_buckets_witness :
  let s := manager three_images 1 [("1:1", ["a.png"])] ["a.png"] in
  PyDict.wf (aspect_ratio_bucket_indices s)
  ∧ PyDict.get "1:1" (aspect_ratio_bucket_indices s) = Some ["a.png"]
  ∧ (batch_size s ≤ Z.of_nat (length ["a.png"]))%Z
  ∧ ∃ images',
      PyDict.get "1:1"
        (aspect_ratio_bucket_indices (compute_aspect_ratio_bucket_indices [0; 1] s).2)
      = Some images'
      ∧ ["a.png"] `prefix_of` images'.
Proof.
  intros s.
  assert (H1 : PyDict.wf (aspect_ratio_bucket_indices s))
    by (apply wf_by_decision; by_computation).
  assert (H2 : PyDict.get "1:1" (aspect_ratio_bucket_indices s) = Some ["a.png"])
    by reflexivity.
  assert (H3 : (batch_size s ≤ Z.of_nat (length ["a.png"]))%Z) by (vm_compute; discriminate).
  split; [exact H1|]. split; [exact H2|]. split; [exact H3|].
  exact (compute_only_appends_to_full_buckets [0; 1] s "1:1" _ H1 H2 H3).
Defined.

Lemma compute_skips_files_already_in_a_bucket_witness :
  let s := manager three_images 1 [("1:1", ["a.png"; "b.png"; "c.png"])]
             ["b.png"; "c.png"] in
  PyDict.wf (aspect_ratio_bucket_indices s)
  ∧ (_discover_new_files s).1 = Ok ["a.png"]
  ∧ ["a.png"] ≠ []
  ∧ (∀ file, file ∈ ["a.png"] → file ∈ all_refs (aspect_ratio_bucket_indices s))
  ∧ aspect_ratio_bucket_indices (compute_aspect_ratio_bucket_indices [0] s).2
    = prune (batch_size s) (aspect_ratio_bucket_indices s).
Proof.
  intros s.
  assert (H1 : PyDict.wf (aspect_ratio_bucket_indices s))
    by (apply wf_by_decision; by_computation).
  assert (H2 : (_discover_new_files s).1 = Ok ["a.png"]) by by_computation.
  assert (H3 : ["a.png"] ≠ ([] : list string)) by discriminate.
  assert (H4 : ∀ file, file ∈ ["a.png"] →
               file ∈ all_refs (aspect_ratio_bucket_indices s)).
  { intros file ->%list_elem_of_singleton. apply list_elem_of_here. }
  split; [exact H1|]. split; [exact H2|]. split; [exact H3|]. split; [exact H4|].
  exact (compute_skips_files_already_in_a_bucket [0] s _ H1 H2 H3 H4).
Defined.

Lemma update_twice_is_update_with_intersection_witness :
  let s := manager three_images 1
             [("1:1", ["a.png"; "b.png"]); ("16:9", ["c.png"])] [] in
  let existing1 : gset string := list_to_set ["a.png"; "c.png"] in
  let existing2 : gset string := list_to_set ["a.png"; "b.png"] in
  PyDict.wf (aspect_ratio_bucket_indices s)
  ∧ aspect_ratio_bucket_indices
      (update_buckets_with_existing_files existing2
         (update_buckets_with_existing_files existing1 s).2).2
    = aspect_ratio_bucket_indices
        (update_buckets_with_existing_files (existing1 ∩ existing2) s).2.
Proof.
  intros s existing1 existing2.
  assert (H1 : PyDict.wf (aspect_ratio_bucket_indices s))
    by (apply wf_by_decision; by_computation).
  split; [exact H1|].
  exact (proj1 (update_twice_is_update_with_intersection existing1 existing2 s H1)).
Defined.

Lemma save_cache_leaves_full_buckets_only_witness :
  let s := manager three_images 2
             [("1:1", ["a.png"; "b.png"]); ("16:9", ["c.png"])] [] in
  PyDict.wf (aspect_ratio_bucket_indices s)
  ∧ aspect_ratio_bucket_indices (_save_cache s).2
    `sublist_of` aspect_ratio_bucket_indices s.
Proof.
  intros s.
  assert (H1 : PyDict.wf (aspect_ratio_bucket_indices s))
    by (apply wf_by_decision; by_computation).
  split; [exact H1|].
  exact (proj1 (proj2 (save_cache_leaves_full_buckets_only s H1))).
Defined.

Lemma refresh_leaves_listed_images_in_full_buckets_witness :
  let s := manager three_images 2 [("4:3", ["gone.png"; "lost.png"])] [] in
  let files := ["a.png"; "b.png"; "c.png"] in
  PyDict.wf (aspect_ratio_bucket_indices s)
  ∧ listed_files s = Ok files
  ∧ listed_files (compute_aspect_ratio_bucket_indices [0; 1; 2] s).2 = Ok files
  ∧ (refresh_buckets [0; 1; 2] s).1 = Ok ()
  ∧ ∀ file, file ∈ files →
      file ∈ instance_images_path (refresh_buckets [0; 1; 2] s).2.
Proof.
  intros s files.
  assert (H1 : PyDict.wf (aspect_ratio_bucket_indices s))
    by (apply wf_by_decision; by_computation).
  assert (H2 : listed_files s = Ok files) by by_computation.
  assert (H3 : listed_files (compute_aspect_ratio_bucket_indices [0; 1; 2] s).2 = Ok files)
    by by_computation.
  assert (H4 : (refresh_buckets [0; 1; 2] s).1 = Ok ()) by by_computation.
  split; [exact H1|]. split; [exact H2|]. split; [exact H3|]. split; [exact H4|].
  exact (proj2 (refresh_leaves_listed_images_in_full_buckets [0; 1; 2] s files H1 H2 H3 H4)).
Defined.

Lemma split_buckets_keeps_every_bucket_witness :
  let s := manager three_images 2
             [("1:1", ["a.png"; "b.png"; "d.png"]); ("16:9", ["c.png"])] [] in
  PyDict.wf (aspect_ratio_bucket_indices s)
  ∧ ∃ idx',
      split_buckets_between_processes Second false s = (Ok (), with_index idx' s)
      ∧ PyDict.keys idx' = ["1:1"; "16:9"].
Proof.
  intros s.
  assert (H1 : PyDict.wf (aspect_ratio_bucket_indices s))
    by (apply wf_by_decision; by_computation).
  split; [exact H1|].
  destruct (split_buckets_keeps_every_bucket Second false s H1) as (idx' & Hrun & Hkeys & _).
  exists idx'. split; [exact Hrun | exact Hkeys].
Defined.

(** On two processes without padding, the second gets one image of the
    first bucket and none of the second, which stays as an empty bucket. *)
Example split_buckets_scenario :
  let s := manager three_images 2
             [("1:1", ["a.png"; "b.png"; "d.png"]); ("16:9", ["c.png"])] [] in
  aspect_ratio_bucket_indices (split_buckets_between_processes Second false s).2
  = [("1:1", ["d.png"]); ("16:9", [])]
  ∧ aspect_ratio_bucket_indices (split_buckets_between_processes First false s).2
    = [("1:1", ["a.png"; "b.png"]); ("16:9", ["c.png"])].
Proof. split; by_computation. Qed.

Lemma save_then_load_round_trip_witness :
  let K := collaborators_knowing [saved_document] in
  let s := manager three_images 2
             [("1:1", ["a.png"; "b.png"]); ("16:9", ["c.png"])]
             ["a.png"; "b.png"; "c.png"] in
  let s' := (@_save_cache _ _ K s).2 in
  let doc := @cache_data _ K (aspect_ratio_bucket_indices s') (instance_images_path s') in
  PyDict.wf (aspect_ratio_bucket_indices s)
  ∧ be_exists (data_backend s') (cache_file s) = true
  ∧ be_read (data_backend s') (cache_file s) = Ok (@json_dumps _ K doc)
  ∧ @json_loads _ K (@json_dumps _ K doc) = Ok (json_of_document doc)
  ∧ (@__init__ _ _ K (data_backend s') (cache_file s)).1.1 = Ok ().
Proof.
  intros K s s' doc.
  assert (H1 : PyDict.wf (aspect_ratio_bucket_indices s))
    by (apply wf_by_decision; by_computation).
  assert (H2 : be_exists (data_backend s') (cache_file s) = true) by by_computation.
  assert (H3 : be_read (data_backend s') (cache_file s) = Ok (@json_dumps _ K doc))
    by by_computation.
  assert (H4 : @json_loads _ K (@json_dumps _ K doc) = Ok (json_of_document doc))
    by by_computation.
  split; [exact H1|]. split; [exact H2|]. split; [exact H3|]. split; [exact H4|].
  exact (proj1 (@save_then_load_round_trip _ _ K s H1 H2 H3 H4)).
Defined.

Lemma load_cache_defaults_missing_fields_witness :
  let backend := {| dir_files := [("/data/cache.json", "{}")] |} in
  be_exists backend "/data/cache.json" = true
  ∧ be_read backend "/data/cache.json" = Ok "{}"
  ∧ json_loads (B:=DirBackend) "{}" = Ok (JDict [])
  ∧ PyDict.get "instance_images_path" ([] : list (string * json)) = None
  ∧ __init__ backend "/data/cache.json" = (Ok (), empty_attrs, []).
Proof.
  intros backend.
  assert (H1 : be_exists backend "/data/cache.json" = true) by reflexivity.
  assert (H2 : be_read backend "/data/cache.json" = Ok "{}") by reflexivity.
  assert (H3 : json_loads (B:=DirBackend) "{}" = Ok (JDict [])) by reflexivity.
  assert (H4 : PyDict.get "instance_images_path" ([] : list (string * json)) = None)
    by reflexivity.
  split; [exact H1|]. split; [exact H2|]. split; [exact H3|]. split; [exact H4|].
  exact (load_cache_defaults_missing_fields backend _ _ _ H1 H2 H3 H4).
Defined.

Lemma s3_ignores_directories_witness :
  let self := s3_bucket [("a.png", "1:1")] in
  no_slash "a.png"
  ∧ S3.read self "/data/cats/a.png" = S3.read self "/data/dogs/a.png".
Proof.
  intros self.
  assert (H1 : no_slash "a.png") by (apply (bool_decide_unpack _); by vm_compute).
  split; [exact H1|].
  exact (proj1 (proj2 (s3_ignores_directories self "/data/cats" "/data/dogs" "a.png" H1))).
Defined.

Lemma s3_listing_breaks_discovery_witness :
  let s := manager (s3_bucket [("a.png", "1:1")]) 1 [] [] in
  S3.list_files (data_backend s) image_pattern (instance_data_root s) = Ok ["a.png"]
  ∧ "a.png" ∈ ["a.png"]
  ∧ String.length "a.png" ≠ 3
  ∧ refresh_buckets [0] s = (Raise ValueError, s).
Proof.
  intros s.
  assert (H1 : S3.list_files (data_backend s) image_pattern (instance_data_root s)
               = Ok ["a.png"]) by by_computation.
  assert (H2 : "a.png" ∈ ["a.png"]) by apply list_elem_of_here.
  assert (H3 : String.length "a.png" ≠ 3) by (vm_compute; discriminate).
  split; [exact H1|]. split; [exact H2|]. split; [exact H3|].
  exact (proj2 (proj2 (proj1 (s3_listing_breaks_discovery [0] s) _ _ H1 H2 H3))).
Defined.

Lemma discover_new_files_is_the_undiscovered_listing_witness :
  let s := manager three_images 2 [] ["a.png"] in
  listed_files s = Ok ["a.png"; "b.png"; "c.png"]
  ∧ ∃ new_files,
      _discover_new_files s = (Ok new_files, s)
      ∧ new_files `sublist_of` ["a.png"; "b.png"; "c.png"].
Proof.
  intros s.
  assert (H1 : listed_files s = Ok ["a.png"; "b.png"; "c.png"]) by by_computation.
  split; [exact H1|].
  destruct (proj1 (discover_new_files_is_the_undiscovered_listing s) _ H1)
    as (new_files & Hrun & Hsub & _).
  exists new_files. split; [exact Hrun | exact Hsub].
Defined.

Lemma seen_from_mark_until_reset_witness :
  (Seen.ResetSeenImages ∉ [Seen.MarkAsSeen "b.png"])
  ∧ Seen.is_seen "a.png"
      (Seen.after ([Seen.MarkAsSeen "c.png"; Seen.ResetSeenImages]
                   ++ Seen.MarkAsSeen "a.png" :: [Seen.MarkAsSeen "b.png"]) ∅)
    = true.
Proof.
  assert (H1 : Seen.ResetSeenImages ∉ [Seen.MarkAsSeen "b.png"]).
  { intros Hin%list_elem_of_singleton. discriminate Hin. }
  split; [exact H1|].
  exact (proj1 (seen_from_mark_until_reset "a.png"
                  [Seen.MarkAsSeen "c.png"; Seen.ResetSeenImages]
                  [Seen.MarkAsSeen "b.png"] ∅) H1).
Defined.

Lemma convert_path_to_key_is_the_basename_witness :
  no_slash "a.png"
  ∧ S3._convert_path_to_key ("/data/cats" +:+ String "/" "a.png") = "a.png".
Proof.
  assert (H1 : no_slash "a.png") by (apply (bool_decide_unpack _); by vm_compute).
  split; [exact H1|].
  exact (proj1 (convert_path_to_key_is_the_basename "/data/cats" "a.png" "") H1).
Defined.

Lemma s3_list_files_filters_the_whole_bucket_witness :
  let self := s3_bucket [("a.png", "1:1"); ("cache.json", "{}"); ("b.JPG", "16:9")] in
  S3.list_objects_v2 (S3.client self) (S3.bucket_name self) EmptyString
  = Ok (Some ["a.png"; "cache.json"; "b.JPG"])
  ∧ ∃ files,
      S3.list_files self image_pattern "/data" = Ok files
      ∧ files `sublist_of` ["a.png"; "cache.json"; "b.JPG"].
Proof.
  intros self.
  assert (H1 : S3.list_objects_v2 (S3.client self) (S3.bucket_name self) EmptyString
               = Ok (Some ["a.png"; "cache.json"; "b.JPG"])) by by_computation.
  split; [exact H1|].
  destruct (proj1 (proj2 (proj2
              (s3_list_files_filters_the_whole_bucket self image_pattern "/data"))) _ H1)
    as (files & Hrun & Hsub & _).
  exists files. split; [exact Hrun | exact Hsub].
Defined.
